(** * Cloud and cloud-shadow masking of Sentinel-2 images

    A shallow embedding of the notebook [cloud-masking-sentinel2.ipynb]:
    [rescale], [sentinelCloudScore], [ESAcloudMask], [shadowMask] (with its
    inner [potentialShadow]), [renameS2], and the cells that build the
    cloud, shadow and ESA masks and apply them.

    The notebook drives a raster engine (the [ee] package) that is not part
    of the repository.  The engine's primitives are modelled in the module
    [Raster] below, per pixel, following the contracts the specification
    gives for them.  Reflectances and scores are rationals (the decimal
    literals of the notebook are exact here); the solar geometry, which
    needs [PI], [cos], [sin] and [tan], is computed over the reals.  The
    engine itself computes in binary64: statements that rounding would
    change are made non-strict or kept away from the thresholds, and the
    module [Double] replays [rescale] on one pixel in binary64. *)

From Stdlib Require Import ZArith QArith Qminmax Qround Reals Psatz.
From Stdlib Require Import List String Bool.
From Stdlib Require PrimFloat.
Import ListNotations.

Open Scope string_scope.
Open Scope Q_scope.

(** ** Errors *)

(** [MissingBand] and [MissingProperty] are what a lookup by name raises,
    [IndexError] is Python's error for [thresholds[i]] out of range.
    [ShapeMismatch] and [InvalidParameter] are the remaining error kinds the
    specification names. *)
Inductive error : Type :=
| MissingBand (name : string)
| MissingProperty (name : string)
| IndexError
| ShapeMismatch
| InvalidParameter.

Inductive result (A : Type) : Type :=
| Ok (a : A)
| Err (e : error).

Arguments Ok {A} a.
Arguments Err {A} e.

Definition ret {A : Type} (a : A) : result A := Ok a.

Definition bind {A B : Type} (c : result A) (k : A -> result B) : result B :=
  match c with
  | Ok a => k a
  | Err e => Err e
  end.

Notation "x <- c ;; k" := (bind c (fun x => k))
  (at level 61, c at next level, right associativity).

(** ** Pixel values *)

(** A pixel value is a number or the not-a-number sentinel. *)
Inductive value : Type :=
| Num (q : Q)
| NaN.

(** Equality of pixel values up to the representation of the rational. *)
Definition veq (a b : value) : Prop :=
  match a, b with
  | Num x, Num y => x == y
  | NaN, NaN => True
  | _, _ => False
  end.

Definition of_bool (b : bool) : value := if b then Num 1 else Num 0.

(** A stored band is true where it is a non-zero number. *)
Definition truthy (a : value) : bool :=
  match a with
  | Num x => negb (Qeq_bool x 0)
  | NaN => false
  end.

(** Modelled from the spec: the elementwise arithmetic of the raster engine,
    which is not part of the repository.  The sentinel propagates through
    every elementwise operation. *)
Definition lift2 (f : Q -> Q -> Q) (a b : value) : value :=
  match a, b with
  | Num x, Num y => Num (f x y)
  | _, _ => NaN
  end.

Definition vadd : value -> value -> value := lift2 Qplus.
Definition vsub : value -> value -> value := lift2 Qminus.
Definition vmin : value -> value -> value := lift2 Qmin.

(** Modelled from the spec: the engine's division.  A zero denominator gives
    the not-a-number sentinel, it does not fail.  The spec says so for
    normalized differences; no result below states what the quotient by a
    zero divisor is anywhere else. *)
Definition vdiv (a b : value) : value :=
  match a, b with
  | Num x, Num y => if Qeq_bool y 0 then NaN else Num (x / y)
  | _, _ => NaN
  end.

(** Modelled from the spec: the engine's threshold comparisons.  A pixel
    holding the sentinel fails every test. *)
Definition vgt (a : value) (t : Q) : bool :=
  match a with
  | Num x => negb (Qle_bool x t)
  | NaN => false
  end.

Definition veqb (a : value) (t : Q) : bool :=
  match a with
  | Num x => Qeq_bool x t
  | NaN => false
  end.

(** Modelled from the spec: the engine's bitwise and on an integer-valued
    band; a value is read as the integer below it. *)
Definition vland (a : value) (m : Z) : value :=
  match a with
  | Num x => Num (inject_Z (Z.land (Qfloor x) m))
  | NaN => NaN
  end.

(** ** Rasters and images *)

Definition pixel : Type := (Z * Z)%type.

(** A single-band raster, and a decided (boolean) raster. *)
Definition band : Type := pixel -> value.
Definition mask : Type := pixel -> bool.

(** An image: named bands, scene metadata, and the nominal scale of its
    projection in metres. *)
Record image : Type := mkImage {
  bands : list (string * band);
  properties : list (string * R);
  scale : R
}.

Fixpoint lookup {A : Type} (name : string) (l : list (string * A)) : option A :=
  match l with
  | [] => None
  | (n, a) :: rest => if String.eqb n name then Some a else lookup name rest
  end.

Module Raster.

(** [ee.Image(c)] *)
Definition constant (c : Q) : band := fun _ => Num c.

Definition add (a b : band) : band := fun p => vadd (a p) (b p).
Definition subtract (a b : band) : band := fun p => vsub (a p) (b p).
Definition divide (a b : band) : band := fun p => vdiv (a p) (b p).
Definition min (a b : band) : band := fun p => vmin (a p) (b p).

Definition gt (a : band) (t : Q) : mask := fun p => vgt (a p) t.
Definition eq (a : band) (t : Q) : mask := fun p => veqb (a p) t.
Definition bitwiseAnd (a : band) (m : Z) : band := fun p => vland (a p) m.

Definition And (a b : mask) : mask := fun p => a p && b p.
Definition Not (a : mask) : mask := fun p => negb (a p).

(** A boolean raster stored as a band of zeros and ones. *)
Definition of_mask (m : mask) : band := fun p => of_bool (m p).

(** [img.select(name)]; fails when the band is absent. *)
Definition select (img : image) (name : string) : result band :=
  match lookup name (bands img) with
  | Some b => Ok b
  | None => Err (MissingBand name)
  end.

(** [img.get(name)] read as a number. *)
Definition get (img : image) (name : string) : result R :=
  match lookup name (properties img) with
  | Some x => Ok x
  | None => Err (MissingProperty name)
  end.

(** [img.addBands(b.rename([name]))]: the band is appended; a band of that
    name already in the image keeps the name ([select] finds the first). *)
Definition addBands (img : image) (name : string) (b : band) : image :=
  mkImage (bands img ++ [(name, b)]) (properties img) (scale img).

(** [img.normalizedDifference([a, b])], (A - B) / (A + B) per pixel. *)
Definition normalizedDifference (img : image) (a b : string) : result band :=
  A <- select img a ;;
  B <- select img b ;;
  ret (divide (subtract A B) (add A B)).

(** Modelled from the spec: [m.changeProj(proj, proj.translate(x, y))], a
    copy of the raster shifted by the integer pixel offset (x, y). *)
Definition translate (m : mask) (x y : Z) : mask :=
  fun p => m (fst p - x, snd p - y)%Z.

(** [ee.ImageCollection.fromImages(stack).max()] on boolean rasters: the
    per-pixel maximum of zeros and ones, a logical or. *)
Definition collection_max (stack : list mask) : mask :=
  fun p => existsb (fun m => m p) stack.

(** [ee.List.sequence(start, stop, step)] on integers, for a positive step. *)
Definition sequence (start stop step : Z) : list Z :=
  map (fun k => (start + step * Z.of_nat k)%Z)
      (seq 0 (Z.to_nat ((stop - start) / step + 1))).

(** [x.round()]: the nearest integer, halves upwards. *)
Definition round (x : R) : Z := Int_part (x + / 2).

(** A stored band of zeros and ones read as a boolean raster. *)
Definition to_mask (b : band) : mask := fun p => truthy (b p).

(** [img.select(names, newNames)]: the listed bands under their new names,
    in the order given; fails at an absent band. *)
Fixpoint select_as (img : image) (names newNames : list string)
    : result (list (string * band)) :=
  match names, newNames with
  | n :: names', m :: newNames' =>
      b <- select img n ;;
      rest <- select_as img names' newNames' ;;
      ret ((m, b) :: rest)
  | _, _ => ret []
  end.

Definition select_bands (img : image) (names newNames : list string)
    : result image :=
  bs <- select_as img names newNames ;;
  ret (mkImage bs (properties img) (scale img)).

(** [img.divide(c)] on every band of an image.  The engine's arithmetic
    returns an image without the metadata of its input. *)
Definition divide_by (img : image) (c : Q) : image :=
  mkImage (map (fun nb => (fst nb, divide (snd nb) (constant c))) (bands img))
          [] (scale img).

Fixpoint remove_key {A : Type} (name : string) (l : list (string * A))
    : list (string * A) :=
  match l with
  | [] => []
  | (n, a) :: rest =>
      if String.eqb n name then remove_key name rest
      else (n, a) :: remove_key name rest
  end.

(** [img.set(name, v)], where [v] is the outcome of an [img.get]: a value
    that could not be read leaves no readable property of that name. *)
Definition set (img : image) (name : string) (v : result R) : image :=
  match v with
  | Ok x => mkImage (bands img) ((name, x) :: properties img) (scale img)
  | Err _ => mkImage (bands img) (remove_key name (properties img)) (scale img)
  end.

(** An image with its validity mask: a pixel carries data where the mask
    is true. *)
Record masked : Type := mkMasked {
  data : image;
  valid : mask
}.

Definition unmasked (img : image) : masked := mkMasked img (fun _ => true).

(** [m.updateMask(k)]: a pixel stays valid where it was valid and [k] is
    non-zero. *)
Definition updateMask (m : masked) (k : mask) : masked :=
  mkMasked (data m) (And (valid m) k).

End Raster.

(** The value a band of a computed image holds at a pixel. *)
Definition band_at (r : result image) (name : string) (p : pixel) : result value :=
  img <- r ;;
  b <- Raster.select img name ;;
  ret (b p).

Definition has_band (img : image) (name : string) : bool :=
  match lookup name (bands img) with
  | Some _ => true
  | None => false
  end.

(** ** The notebook *)

(** Python's [thresholds[i]]. *)
Definition index (thresholds : list Q) (i : nat) : result Q :=
  match nth_error thresholds i with
  | Some t => Ok t
  | None => Err IndexError
  end.

(** Linear stretch of image between two threshold values. *)
Definition rescale (img : band) (thresholds : list Q) : result band :=
  t0 <- index thresholds 0 ;;
  t1 <- index thresholds 1 ;;
  ret (Raster.divide (Raster.subtract img (Raster.constant t0))
                     (Raster.constant (t1 - t0))).

(** [rescale] at one pixel in binary64, the arithmetic of Python's floats
    and of the engine's double-precision pixels. *)
Module Double.

Import PrimFloat.

Definition index (thresholds : list float) (i : nat) : result float :=
  match nth_error thresholds i with
  | Some t => Ok t
  | None => Err IndexError
  end.

Definition rescale (x : float) (thresholds : list float) : result float :=
  t0 <- index thresholds 0 ;;
  t1 <- index thresholds 1 ;;
  ret ((x - t0) / (t1 - t0))%float.

(** Two neighbouring NDSI values and the scorer's snow interval, each
    literal read as the nearest binary64 number, as Python reads it. *)
#[local] Set Warnings "-inexact-float".

End Double.

(** Computes spectral indices of cloudyness and take the minimum of them. *)
Definition sentinelCloudScore (img : image) : result image :=
  (* cloud until proven otherwise *)
  let score := Raster.constant 1 in
  (* clouds are reasonably bright *)
  blue <- Raster.select img "blue" ;;
  r <- rescale blue [0.1; 0.5] ;;
  let score := Raster.min score r in
  aerosol <- Raster.select img "aerosol" ;;
  r <- rescale aerosol [0.1; 0.3] ;;
  let score := Raster.min score r in
  aerosol <- Raster.select img "aerosol" ;;
  cirrus <- Raster.select img "cirrus" ;;
  r <- rescale (Raster.add aerosol cirrus) [0.15; 0.2] ;;
  let score := Raster.min score r in
  red <- Raster.select img "red" ;;
  green <- Raster.select img "green" ;;
  blue <- Raster.select img "blue" ;;
  r <- rescale (Raster.add (Raster.add red green) blue) [0.2; 0.8] ;;
  let score := Raster.min score r in
  (* clouds are moist *)
  ndmi <- Raster.normalizedDifference img "red4" "swir1" ;;
  r <- rescale ndmi [-0.1; 0.1] ;;
  let score := Raster.min score r in
  (* clouds are not snow *)
  ndsi <- Raster.normalizedDifference img "green" "swir1" ;;
  r <- rescale ndsi [0.8; 0.6] ;;
  let score := Raster.min score r in
  ret (Raster.addBands img "cloudScore" score).

(** European Space Agency (ESA) clouds from 'QA60'. *)
Definition ESAcloudMask (img : image) : result image :=
  qa <- Raster.select img "QA60" ;;
  (* bits 10 and 11 are clouds and cirrus *)
  let cloudBitMask := (2 ^ 10)%Z in
  let cirrusBitMask := (2 ^ 11)%Z in
  (* both flags set to zero indicates clear conditions *)
  let clear := Raster.And (Raster.eq (Raster.bitwiseAnd qa cloudBitMask) 0)
                          (Raster.eq (Raster.bitwiseAnd qa cirrusBitMask) 0) in
  (* clouds is not clear *)
  let cloud := Raster.Not clear in
  ret (Raster.addBands img "ESA_clouds" (Raster.of_mask cloud)).

(** The notebook's global variables a function body reads. *)
Record globals : Type := mkGlobals {
  toa : image
}.

(** Solar geometry (radians). *)
Definition solar_azimuth_rad (solar_azimuth : R) : R :=
  (solar_azimuth * PI / 180 + 0.5 * PI)%R.

Definition solar_zenith_rad (solar_zenith : R) : R :=
  (0.5 * PI - solar_zenith * PI / 180)%R.

(** The inner function of [shadowMask]: the cloud mask shifted along the
    shadow vector of one cloud height.  [zenith], [azimuth], [nominalScale]
    and [cloudMask] are the variables it captures from [shadowMask]. *)
Definition potentialShadow (zenith azimuth nominalScale : R) (cloudMask : mask)
    (cloudHeight : Z) : mask :=
  let cloudHeight := IZR cloudHeight in
  (* shadow vector length *)
  let shadowVector := (tan zenith * cloudHeight)%R in
  (* x and y components of shadow vector length *)
  let x := Raster.round (cos azimuth * shadowVector / nominalScale)%R in
  let y := Raster.round (sin azimuth * shadowVector / nominalScale)%R in
  (* affine translation of clouds *)
  let cloudShift := Raster.translate cloudMask x y in
  cloudShift.

(** Finds cloud shadows in images. *)
Definition shadowMask (g : globals) (img : image) (cloudMaskType : string)
    : result image :=
  (* select a cloud mask *)
  cloudMask <- Raster.select img cloudMaskType ;;
  (* make sure it is binary (i.e. apply threshold to cloud score) *)
  let cloudScoreThreshold := 0.5 in
  let cloudMask := Raster.gt cloudMask cloudScoreThreshold in
  (* solar geometry (radians) *)
  solar_azimuth <- Raster.get img "solar_azimuth" ;;
  let azimuth := solar_azimuth_rad solar_azimuth in
  solar_zenith <- Raster.get img "solar_zenith" ;;
  let zenith := solar_zenith_rad solar_zenith in
  (* find potential shadow areas based on cloud and solar geometry *)
  let nominalScale := scale img in
  let cloudHeights := Raster.sequence 500 4000 500 in
  let potentialShadowStack :=
    map (potentialShadow zenith azimuth nominalScale cloudMask) cloudHeights in
  let potentialShadow := Raster.collection_max potentialShadowStack in
  (* shadows are not clouds *)
  let potentialShadow := Raster.And potentialShadow (Raster.Not cloudMask) in
  (* (modified) dark pixel detection *)
  nd <- Raster.normalizedDifference (toa g) "green" "swir2" ;;
  let darkPixels := Raster.gt nd 0.25 in
  (* shadows are dark *)
  let shadows := Raster.And potentialShadow darkPixels in
  ret (Raster.addBands img "shadows" (Raster.of_mask shadows)).

(** Renames the Sentinel-2 bands, scales them to reflectance, and carries the
    QA band and the mean solar angles over. *)
Definition renameS2 (img : image) : result image :=
  renamed <- Raster.select_bands img
    ["B1"; "B2"; "B3"; "B4"; "B6"; "B8"; "B8A"; "B9"; "B10"; "B11"; "B12"]
    ["aerosol"; "blue"; "green"; "red"; "red2"; "nir"; "red4"; "h2o";
     "cirrus"; "swir1"; "swir2"] ;;
  let scaled := Raster.divide_by renamed 10000 in
  qa <- Raster.select img "QA60" ;;
  let with_qa := Raster.addBands scaled "QA60" qa in
  let with_azimuth :=
    Raster.set with_qa "solar_azimuth"
      (Raster.get img "MEAN_SOLAR_AZIMUTH_ANGLE") in
  ret (Raster.set with_azimuth "solar_zenith"
         (Raster.get img "MEAN_SOLAR_ZENITH_ANGLE")).

(** The cells of the notebook that build the masks, as functions of the
    global [toa] they read. *)

(** Cloud Score *)
Definition cloud_score (g : globals) : result mask :=
  scored <- sentinelCloudScore (toa g) ;;
  cloudScore <- Raster.select scored "cloudScore" ;;
  ret (Raster.Not (Raster.gt cloudScore 0.5)).

Definition toaCS (g : globals) : result Raster.masked :=
  cloud_score <- cloud_score g ;;
  ret (Raster.updateMask (Raster.unmasked (toa g)) cloud_score).

(** Cloud Shadow *)
Definition shadow_mask (g : globals) : result mask :=
  scored <- sentinelCloudScore (toa g) ;;
  shadowed <- shadowMask g scored "cloudScore" ;;
  shadows <- Raster.select shadowed "shadows" ;;
  ret (Raster.Not (Raster.to_mask shadows)).

Definition toaSHA (g : globals) : result Raster.masked :=
  toaCS <- toaCS g ;;
  shadow_mask <- shadow_mask g ;;
  ret (Raster.updateMask toaCS shadow_mask).

(** ESA Cloud Mask *)
Definition esa_mask (g : globals) : result mask :=
  flagged <- ESAcloudMask (toa g) ;;
  clouds <- Raster.select flagged "ESA_clouds" ;;
  ret (Raster.Not (Raster.to_mask clouds)).

Definition toaESA (g : globals) : result Raster.masked :=
  esa_mask <- esa_mask g ;;
  ret (Raster.updateMask (Raster.unmasked (toa g)) esa_mask).

Definition has_property (img : image) (name : string) : bool :=
  match lookup name (properties img) with
  | Some _ => true
  | None => false
  end.

(** The bands [renameS2] reads from a Sentinel-2 image. *)
Record s2_bands : Type := mkS2Bands {
  s2_B1 : band;
  s2_B2 : band;
  s2_B3 : band;
  s2_B4 : band;
  s2_B6 : band;
  s2_B8 : band;
  s2_B8A : band;
  s2_B9 : band;
  s2_B10 : band;
  s2_B11 : band;
  s2_B12 : band;
  s2_QA60 : band
}.

Definition raw_bands (img : image) (rb : s2_bands) : Prop :=
  Raster.select img "B1" = Ok (s2_B1 rb) /\
  Raster.select img "B2" = Ok (s2_B2 rb) /\
  Raster.select img "B3" = Ok (s2_B3 rb) /\
  Raster.select img "B4" = Ok (s2_B4 rb) /\
  Raster.select img "B6" = Ok (s2_B6 rb) /\
  Raster.select img "B8" = Ok (s2_B8 rb) /\
  Raster.select img "B8A" = Ok (s2_B8A rb) /\
  Raster.select img "B9" = Ok (s2_B9 rb) /\
  Raster.select img "B10" = Ok (s2_B10 rb) /\
  Raster.select img "B11" = Ok (s2_B11 rb) /\
  Raster.select img "B12" = Ok (s2_B12 rb) /\
  Raster.select img "QA60" = Ok (s2_QA60 rb).

(** ** What the specification says the scorer computes *)

(** The bands the scorer reads, and their values at one pixel. *)
Record cloud_bands : Type := mkCloudBands {
  b_blue : band;
  b_aerosol : band;
  b_cirrus : band;
  b_red : band;
  b_green : band;
  b_red4 : band;
  b_swir1 : band
}.

Definition required_bands (img : image) (bs : cloud_bands) : Prop :=
  Raster.select img "blue" = Ok (b_blue bs) /\
  Raster.select img "aerosol" = Ok (b_aerosol bs) /\
  Raster.select img "cirrus" = Ok (b_cirrus bs) /\
  Raster.select img "red" = Ok (b_red bs) /\
  Raster.select img "green" = Ok (b_green bs) /\
  Raster.select img "red4" = Ok (b_red4 bs) /\
  Raster.select img "swir1" = Ok (b_swir1 bs).

(** output = (input - low) / (high - low) *)
Definition spec_rescale (x : value) (low high : Q) : value :=
  vdiv (vsub x (Num low)) (Num (high - low)).

(** (A - B) / (A + B) *)
Definition spec_normalizedDifference (A B : value) : value :=
  vdiv (vsub A B) (vadd A B).

(** Per-pixel minimum across all inputs. *)
Definition minAggregate (first : value) (others : list value) : value :=
  fold_left vmin others first.

(** The rescaled indicators the specification lists for the scorer. *)
Definition spec_indicators (bs : cloud_bands) (p : pixel) : list value :=
  [ spec_rescale (b_blue bs p) 0.1 0.5;
    spec_rescale (b_aerosol bs p) 0.1 0.3;
    spec_rescale (vadd (b_aerosol bs p) (b_cirrus bs p)) 0.15 0.2;
    spec_rescale (vadd (vadd (b_red bs p) (b_green bs p)) (b_blue bs p)) 0.2 0.8;
    spec_rescale (spec_normalizedDifference (b_red4 bs p) (b_swir1 bs p)) (-0.1) 0.1;
    spec_rescale (spec_normalizedDifference (b_green bs p) (b_swir1 bs p)) 0.8 0.6 ].

(** Minimum-aggregation of exactly the listed indicators. *)
Definition spec_cloudScore (bs : cloud_bands) (p : pixel) : value :=
  match spec_indicators bs p with
  | [] => NaN
  | i :: others => minAggregate i others
  end.

(** The scorer's bands as [renameS2] derives them from the raw ones. *)
Definition reflectance (b : band) : band :=
  Raster.divide b (Raster.constant 10000).

Definition toa_bands (rb : s2_bands) : cloud_bands :=
  mkCloudBands (reflectance (s2_B2 rb)) (reflectance (s2_B1 rb))
    (reflectance (s2_B10 rb)) (reflectance (s2_B4 rb))
    (reflectance (s2_B3 rb)) (reflectance (s2_B8A rb))
    (reflectance (s2_B11 rb)).

(** ** Sample scenes *)

(** A scene whose reflectance bands are uniform. *)
Definition uniform_scene (blue aerosol cirrus red green red4 swir1 swir2 : Q)
    (solar_azimuth solar_zenith nominalScale : R) : image :=
  mkImage
    [ ("aerosol", Raster.constant aerosol); ("blue", Raster.constant blue);
      ("green", Raster.constant green); ("red", Raster.constant red);
      ("red4", Raster.constant red4); ("cirrus", Raster.constant cirrus);
      ("swir1", Raster.constant swir1); ("swir2", Raster.constant swir2) ]
    [ ("solar_azimuth", solar_azimuth); ("solar_zenith", solar_zenith) ]
    nominalScale.

Definition uniform_bands (blue aerosol cirrus red green red4 swir1 : Q)
    : cloud_bands :=
  mkCloudBands (Raster.constant blue) (Raster.constant aerosol)
    (Raster.constant cirrus) (Raster.constant red) (Raster.constant green)
    (Raster.constant red4) (Raster.constant swir1).

(** Dark water: every band reflects 5 percent. *)
Definition dark_scene : image :=
  uniform_scene 0.05 0.05 0.05 0.05 0.05 0.05 0.05 0.05 0 45 10.

Definition dark_bands : cloud_bands :=
  uniform_bands 0.05 0.05 0.05 0.05 0.05 0.05 0.05.

(** A saturated cloud top: every band reflects fully, swir1 half. *)
Definition bright_scene : image :=
  uniform_scene 1 1 1 1 1 1 0.5 0.5 0 45 10.

Definition bright_bands : cloud_bands :=
  uniform_bands 1 1 1 1 1 1 0.5.

(** No signal at all: every band is zero. *)
Definition void_scene : image :=
  uniform_scene 0 0 0 0 0 0 0 0 0 45 10.

Definition void_bands : cloud_bands :=
  uniform_bands 0 0 0 0 0 0 0.



(** A cloud mask with a single true pixel at the origin. *)
Definition origin_mask : mask :=
  fun p => ((fst p =? 0) && (snd p =? 0))%Z.

(** A scene with one cloudy pixel, at the origin, stored in the band
    "cloud"; sun at azimuth 0 and zenith 45 degrees, 10 m pixels. *)
Definition one_cloud_scene : image :=
  mkImage
    [ ("cloud", Raster.of_mask origin_mask);
      ("green", Raster.constant 0.1); ("swir2", Raster.constant 0.5) ]
    [ ("solar_azimuth", 0%R); ("solar_zenith", 45%R) ]
    10.

(** Two bindings of the notebook's global [toa]: a scene that passes the
    darkness test everywhere and one that fails it everywhere. *)
Definition toa_dark : globals :=
  mkGlobals (uniform_scene 0.1 0.1 0.1 0.1 0.5 0.1 0.1 0.1 0 45 10).

Definition toa_light : globals :=
  mkGlobals (uniform_scene 0.1 0.1 0.1 0.1 0.1 0.1 0.1 0.5 0 45 10).

(** A scene carrying a QA60 band of constant value [v]. *)
Definition qa_scene (v : Z) : image :=
  mkImage [ ("QA60", Raster.constant (inject_Z v)) ] [] 60.

(** A raw Sentinel-2 scene whose bands hold uniform digital numbers. *)
Definition raw_scene (dn : list (string * Z)) (azimuth zenith : R) : image :=
  mkImage (map (fun nv => (fst nv, Raster.constant (inject_Z (snd nv)))) dn)
    [ ("MEAN_SOLAR_AZIMUTH_ANGLE", azimuth);
      ("MEAN_SOLAR_ZENITH_ANGLE", zenith) ]
    10.

Definition raw_uniform (dn qa : Z) : s2_bands :=
  let b := Raster.constant (inject_Z dn) in
  mkS2Bands b b b b b b b b b b b (Raster.constant (inject_Z qa)).

(** Every band at the digital number [dn], QA value [qa]. *)
Definition flat_raw_scene (dn qa : Z) : image :=
  raw_scene
    [ ("B1", dn); ("B2", dn); ("B3", dn); ("B4", dn); ("B5", dn); ("B6", dn);
      ("B7", dn); ("B8", dn); ("B8A", dn); ("B9", dn); ("B10", dn);
      ("B11", dn); ("B12", dn); ("QA60", qa) ]
    0 45.

(** A raw scene with a different digital number in every band. *)
Definition graded_raw_scene : image :=
  raw_scene
    [ ("B1", 100); ("B2", 200); ("B3", 300); ("B4", 400); ("B5", 450);
      ("B6", 500); ("B7", 550); ("B8", 600); ("B8A", 700); ("B9", 800);
      ("B10", 900); ("B11", 1000); ("B12", 1100); ("QA60", 1024) ]%Z
    0 45.

Definition graded_raw : s2_bands :=
  mkS2Bands
    (Raster.constant (inject_Z 100)) (Raster.constant (inject_Z 200))
    (Raster.constant (inject_Z 300)) (Raster.constant (inject_Z 400))
    (Raster.constant (inject_Z 500)) (Raster.constant (inject_Z 600))
    (Raster.constant (inject_Z 700)) (Raster.constant (inject_Z 800))
    (Raster.constant (inject_Z 900)) (Raster.constant (inject_Z 1000))
    (Raster.constant (inject_Z 1100)) (Raster.constant (inject_Z 1024)).

(** * Properties *)

(** ** Lookups *)

Lemma lookup_app_none {A : Type} (name : string) (l l' : list (string * A)) :
  lookup name l = None -> lookup name (l ++ l') = lookup name l'.
Proof.
  induction l as [| [n a] l IH]; simpl; intros H.
  - reflexivity.
  - destruct (String.eqb n name); [discriminate | auto].
Qed.

Lemma lookup_app_some {A : Type} (name : string) (l l' : list (string * A)) (a : A) :
  lookup name l = Some a -> lookup name (l ++ l') = Some a.
Proof.
  induction l as [| [n b] l IH]; simpl; intros H.
  - discriminate.
  - destruct (String.eqb n name); auto.
Qed.

Lemma select_addBands_new (img : image) (name : string) (b : band) :
  has_band img name = false ->
  Raster.select (Raster.addBands img name b) name = Ok b.
Proof.
  unfold has_band, Raster.select, Raster.addBands; simpl.
  destruct (lookup name (bands img)) eqn:E; [discriminate |].
  intros _. rewrite (lookup_app_none _ _ _ E). simpl.
  now rewrite String.eqb_refl.
Qed.

Lemma band_at_addBands (img : image) (name : string) (b : band) (p : pixel) :
  has_band img name = false ->
  band_at (Ok (Raster.addBands img name b)) name p = Ok (b p).
Proof.
  intros H. unfold band_at; simpl.
  now rewrite (select_addBands_new _ _ _ H).
Qed.

(** ** The bitmask decoder *)

Lemma land_pow2 (v n : Z) :
  (0 <= n)%Z ->
  Z.land v (2 ^ n) = if Z.testbit v n then (2 ^ n)%Z else 0%Z.
Proof.
  intros Hn. apply Z.bits_inj'. intros m Hm.
  rewrite Z.land_spec, (Z.pow2_bits_eqb n m Hn).
  destruct (Z.eqb_spec n m) as [-> | Hne].
  - destruct (Z.testbit v m); simpl.
    + now rewrite Z.pow2_bits_eqb, Z.eqb_refl.
    + now rewrite Z.bits_0.
  - rewrite andb_false_r.
    destruct (Z.testbit v n).
    + rewrite Z.pow2_bits_eqb by assumption.
      symmetry. now apply Z.eqb_neq.
    + now rewrite Z.bits_0.
Qed.

Lemma bit_test (v n : Z) :
  (0 <= n)%Z ->
  veqb (vland (Num (inject_Z v)) (2 ^ n)) 0 = negb (Z.testbit v n).
Proof.
  intros Hn. unfold veqb, vland. rewrite Qfloor_Z, (land_pow2 v n Hn).
  destruct (Z.testbit v n); simpl.
  - apply not_true_is_false. intros H. apply Qeq_bool_eq in H.
    unfold Qeq in H; simpl in H.
    assert (0 < 2 ^ n)%Z by (apply Z.pow_pos_nonneg; lia). lia.
  - reflexivity.
Qed.

(** C1. For every integer value [v] of the QA band, the cloud flag of
    [ESAcloudMask] is true if and only if bit 10 or bit 11 of [v] is set,
    and false (the pixel is clear) if and only if both bits are zero. *)
Theorem ESAcloudMask_two_bit_test :
  forall (img : image) (qa : band) (p : pixel) (v : Z),
    Raster.select img "QA60" = Ok qa ->
    has_band img "ESA_clouds" = false ->
    qa p = Num (inject_Z v) ->
    exists flag : bool,
      band_at (ESAcloudMask img) "ESA_clouds" p = Ok (of_bool flag) /\
      (flag = true <-> Z.testbit v 10 = true \/ Z.testbit v 11 = true) /\
      (flag = false <-> Z.testbit v 10 = false /\ Z.testbit v 11 = false).
Proof.
  intros img qa p v Hqa Hnew Hv.
  exists (Z.testbit v 10 || Z.testbit v 11)%bool. split.
  - unfold ESAcloudMask. rewrite Hqa. cbn [bind ret].
    rewrite band_at_addBands by assumption.
    unfold Raster.of_mask, Raster.Not, Raster.And, Raster.eq, Raster.bitwiseAnd.
    rewrite Hv, !bit_test by lia.
    now destruct (Z.testbit v 10), (Z.testbit v 11).
  - destruct (Z.testbit v 10), (Z.testbit v 11); simpl; intuition congruence.
Qed.

(** The four combinations of the two bits. *)
Example ESAcloudMask_four_combinations :
  band_at (ESAcloudMask (qa_scene 0)) "ESA_clouds" (0, 0)%Z = Ok (Num 0) /\
  band_at (ESAcloudMask (qa_scene 1024)) "ESA_clouds" (0, 0)%Z = Ok (Num 1) /\
  band_at (ESAcloudMask (qa_scene 2048)) "ESA_clouds" (0, 0)%Z = Ok (Num 1) /\
  band_at (ESAcloudMask (qa_scene 3072)) "ESA_clouds" (0, 0)%Z = Ok (Num 1).
Proof. repeat split; vm_compute; reflexivity. Qed.

Lemma ESAcloudMask_two_bit_test_witness :
  exists flag : bool,
    band_at (ESAcloudMask (qa_scene 1024)) "ESA_clouds" (5, 7)%Z = Ok (of_bool flag) /\
    (flag = true <-> Z.testbit 1024 10 = true \/ Z.testbit 1024 11 = true) /\
    (flag = false <-> Z.testbit 1024 10 = false /\ Z.testbit 1024 11 = false).
Proof.
  apply (ESAcloudMask_two_bit_test (qa_scene 1024)
           (Raster.constant (inject_Z 1024)) (5, 7)%Z 1024);
    reflexivity.
Defined.

(** ** Pixel arithmetic *)

Lemma vdiv_Num (x y : Q) : ~ y == 0 -> vdiv (Num x) (Num y) = Num (x / y).
Proof.
  intros H. unfold vdiv.
  destruct (Qeq_bool y 0) eqn:E; [| reflexivity].
  apply Qeq_bool_eq in E. contradiction.
Qed.

Lemma vdiv_zero (a : value) (y : Q) : y == 0 -> vdiv a (Num y) = NaN.
Proof.
  intros H. destruct a as [x |]; simpl; [| reflexivity].
  now rewrite (Qeq_eq_bool _ _ H).
Qed.

Lemma vmin_Num (a b : value) (q : Q) :
  vmin a b = Num q -> exists x y, a = Num x /\ b = Num y /\ q = Qmin x y.
Proof.
  destruct a as [x |], b as [y |]; simpl; try discriminate.
  intros H. injection H as <-. now exists x, y.
Qed.

Lemma vmin_NaN_r (a : value) : vmin a NaN = NaN.
Proof. now destruct a. Qed.

Lemma vgt_spec (x t : Q) : vgt (Num x) t = true <-> t < x.
Proof.
  unfold vgt. rewrite negb_true_iff. split; intros H.
  - apply Qnot_le_lt. intros Hle. apply Qle_bool_iff in Hle. congruence.
  - apply not_true_is_false. intros Hle. apply Qle_bool_iff in Hle. lra.
Qed.

(** ** Minimum aggregation *)

Lemma minAggregate_NaN (others : list value) : minAggregate NaN others = NaN.
Proof. induction others as [| i others IH]; simpl; auto. Qed.

Lemma minAggregate_lower_bound (others : list value) :
  forall (first : value) (q : Q),
    minAggregate first others = Num q ->
    (exists x, first = Num x /\ q <= x) /\
    Forall (fun i => exists y, i = Num y /\ q <= y) others.
Proof.
  induction others as [| i others IH]; intros first q H.
  - simpl in H. subst first. split; [exists q; split; [reflexivity | lra] | constructor].
  - simpl in H. destruct (IH _ _ H) as [(m & Hm & Hq) Hall].
    destruct (vmin_Num _ _ _ Hm) as (x & y & -> & -> & ->).
    pose proof (Q.le_min_l x y). pose proof (Q.le_min_r x y).
    split; [exists x; split; [reflexivity | lra] |].
    constructor; [exists y; split; [reflexivity | lra] | assumption].
Qed.

Lemma minAggregate_attained (others : list value) :
  forall (first : value) (q : Q),
    minAggregate first others = Num q ->
    Exists (fun i => veq i (Num q)) (first :: others).
Proof.
  induction others as [| i others IH]; intros first q H.
  - simpl in H. subst first. left. simpl. reflexivity.
  - simpl in H. specialize (IH _ _ H).
    apply Exists_cons in IH. destruct IH as [Hhd | Htl].
    + destruct (vmin (first) i) as [m |] eqn:Em; [| contradiction].
      destruct (vmin_Num _ _ _ Em) as (x & y & -> & -> & ->).
      simpl in Hhd. destruct (Q.min_dec x y) as [Hx | Hy].
      * left. simpl. now rewrite <- Hx.
      * right. left. simpl. now rewrite <- Hy.
    + right. right. assumption.
Qed.

Lemma minAggregate_propagates (others : list value) :
  forall first : value,
    In NaN others -> minAggregate first others = NaN.
Proof.
  induction others as [| i others IH]; intros first Hin; [destruct Hin |].
  simpl. destruct Hin as [-> | Hin].
  - rewrite vmin_NaN_r. apply minAggregate_NaN.
  - now apply IH.
Qed.

(** ** The cloud scorer *)

Lemma rescale_pair (img : band) (lo hi : Q) :
  rescale img [lo; hi] =
  Ok (Raster.divide (Raster.subtract img (Raster.constant lo))
                    (Raster.constant (hi - lo))).
Proof. reflexivity. Qed.

(** The band [sentinelCloudScore] appends, pixel by pixel. *)
Lemma cloudScore_at (img : image) (bs : cloud_bands) (p : pixel) :
  required_bands img bs ->
  has_band img "cloudScore" = false ->
  band_at (sentinelCloudScore img) "cloudScore" p =
  Ok (minAggregate (Num 1) (spec_indicators bs p)).
Proof.
  intros (Hblue & Haer & Hcir & Hred & Hgre & Hr4 & Hsw) Hnew.
  unfold sentinelCloudScore, Raster.normalizedDifference.
  rewrite Hblue, Haer, Hcir, Hred, Hgre, Hr4, Hsw.
  cbn [bind ret]. rewrite !rescale_pair. cbn [bind ret].
  rewrite band_at_addBands by assumption.
  reflexivity.
Qed.

Lemma uniform_required (blue aerosol cirrus red green red4 swir1 swir2 : Q)
    (az ze sc : R) :
  required_bands
    (uniform_scene blue aerosol cirrus red green red4 swir1 swir2 az ze sc)
    (uniform_bands blue aerosol cirrus red green red4 swir1).
Proof. repeat split. Qed.

(** C2 as the specification words it fails: on dark water the combined score
    is -1, outside [0,1]. *)
Lemma cloudScore_below_zero :
  required_bands dark_scene dark_bands /\
  has_band dark_scene "cloudScore" = false /\
  exists q : Q,
    band_at (sentinelCloudScore dark_scene) "cloudScore" (0, 0)%Z = Ok (Num q) /\
    q == -1 /\ ~ (0 <= q <= 1).
Proof.
  split; [apply uniform_required |]. split; [reflexivity |].
  eexists. split; [vm_compute; reflexivity |].
  split; [reflexivity |].
  intros [H _]. apply Qle_bool_iff in H. vm_compute in H. discriminate.
Qed.

(** C2, amended.  For every raster holding the required bands and every
    pixel, the scorer returns; where the score is a number it is at most 1,
    and it is at least 0 exactly when each of the six rescaled indicators is
    at least 0 there. *)
Theorem cloudScore_range :
  forall (img : image) (bs : cloud_bands) (p : pixel),
    required_bands img bs ->
    has_band img "cloudScore" = false ->
    exists v : value,
      band_at (sentinelCloudScore img) "cloudScore" p = Ok v /\
      forall q : Q, v = Num q ->
        q <= 1 /\
        (0 <= q <->
         Forall (fun i => exists y, i = Num y /\ 0 <= y) (spec_indicators bs p)).
Proof.
  intros img bs p Hreq Hnew.
  exists (minAggregate (Num 1) (spec_indicators bs p)).
  split; [now apply cloudScore_at |].
  intros q Hq.
  destruct (minAggregate_lower_bound _ _ _ Hq) as [(x & Hx & Hle) Hall].
  injection Hx as <-. split; [assumption |]. split.
  - intros H0. eapply Forall_impl; [| exact Hall].
    intros i (y & -> & Hy). exists y. split; [reflexivity | lra].
  - intros Hpos. apply minAggregate_attained in Hq.
    apply Exists_cons in Hq. destruct Hq as [H1 | Hex].
    + simpl in H1. lra.
    + apply Exists_exists in Hex. destruct Hex as (i & Hin & Hi).
      rewrite Forall_forall in Hpos.
      destruct (Hpos i Hin) as (y & -> & Hy). simpl in Hi. lra.
Qed.

Lemma cloudScore_range_witness :
  exists v : value,
    band_at (sentinelCloudScore bright_scene) "cloudScore" (3, 4)%Z = Ok v /\
    forall q : Q, v = Num q ->
      q <= 1 /\
      (0 <= q <->
       Forall (fun i => exists y, i = Num y /\ 0 <= y)
              (spec_indicators bright_bands (3, 4)%Z)).
Proof.
  apply (cloudScore_range bright_scene bright_bands (3, 4)%Z).
  - repeat split.
  - reflexivity.
Defined.

(** C3 as the specification words it fails: on a saturated cloud top each of
    the six listed indicators exceeds 1 (their minimum is 13/6), while the
    scorer returns 1. *)
Lemma cloudScore_not_only_listed_indicators :
  required_bands bright_scene bright_bands /\
  has_band bright_scene "cloudScore" = false /\
  band_at (sentinelCloudScore bright_scene) "cloudScore" (0, 0)%Z = Ok (Num 1) /\
  veq (spec_cloudScore bright_bands (0, 0)%Z) (Num (13 # 6)) /\
  ~ veq (Num 1) (spec_cloudScore bright_bands (0, 0)%Z).
Proof.
  split; [apply uniform_required |]. split; [reflexivity |].
  split; [vm_compute; reflexivity |].
  split; vm_compute; [reflexivity | discriminate].
Qed.

Lemma minAggregate_NaN_inv (others : list value) :
  forall first : value,
    minAggregate first others = NaN -> first = NaN \/ In NaN others.
Proof.
  induction others as [| i others IH]; intros first H; simpl in H.
  - now left.
  - destruct (IH _ H) as [Hm | Hin].
    + destruct first as [x |], i as [y |]; simpl in Hm;
        try discriminate; auto using in_eq.
    + right. now right.
Qed.

(** C3, amended.  For every raster holding the required bands and every
    pixel, the combined score is the per-pixel minimum of the constant 1 and
    the six listed rescaled indicators: a number below or equal to each of
    them and equal to one of them, or the sentinel exactly when one of the
    indicators is the sentinel. *)
Theorem cloudScore_is_min_of_one_and_indicators :
  forall (img : image) (bs : cloud_bands) (p : pixel),
    required_bands img bs ->
    has_band img "cloudScore" = false ->
    exists v : value,
      band_at (sentinelCloudScore img) "cloudScore" p = Ok v /\
      v = minAggregate (Num 1) (spec_indicators bs p) /\
      (forall q : Q, v = Num q ->
         Forall (fun i => exists y, i = Num y /\ q <= y)
                (Num 1 :: spec_indicators bs p) /\
         Exists (fun i => veq i (Num q)) (Num 1 :: spec_indicators bs p)) /\
      (v = NaN <-> In NaN (spec_indicators bs p)).
Proof.
  intros img bs p Hreq Hnew.
  exists (minAggregate (Num 1) (spec_indicators bs p)).
  split; [now apply cloudScore_at |]. split; [reflexivity |]. split.
  - intros q Hq. split.
    + destruct (minAggregate_lower_bound _ _ _ Hq) as [Hfirst Hall].
      now constructor.
    + now apply minAggregate_attained.
  - split.
    + intros H. destruct (minAggregate_NaN_inv _ _ H) as [H1 | Hin];
        [discriminate | assumption].
    + apply minAggregate_propagates.
Qed.

Lemma cloudScore_is_min_of_one_and_indicators_witness :
  exists v : value,
    band_at (sentinelCloudScore dark_scene) "cloudScore" (0, 0)%Z = Ok v /\
    v = minAggregate (Num 1) (spec_indicators dark_bands (0, 0)%Z) /\
    (forall q : Q, v = Num q ->
       Forall (fun i => exists y, i = Num y /\ q <= y)
              (Num 1 :: spec_indicators dark_bands (0, 0)%Z) /\
       Exists (fun i => veq i (Num q))
              (Num 1 :: spec_indicators dark_bands (0, 0)%Z)) /\
    (v = NaN <-> In NaN (spec_indicators dark_bands (0, 0)%Z)).
Proof.
  apply (cloudScore_is_min_of_one_and_indicators dark_scene dark_bands (0, 0)%Z).
  - repeat split.
  - reflexivity.
Defined.

(** C10.  For every raster holding the required bands and every pixel, the
    combined score never exceeds 1: a numeric score is at most 1 and the
    test [score > 1] fails.  Nothing bounds the score from below: on dark
    water it is negative. *)
Theorem cloudScore_at_most_one :
  forall (img : image) (bs : cloud_bands) (p : pixel),
    required_bands img bs ->
    has_band img "cloudScore" = false ->
    (exists v : value,
       band_at (sentinelCloudScore img) "cloudScore" p = Ok v /\
       (forall q : Q, v = Num q -> q <= 1) /\
       vgt v 1 = false) /\
    (exists q : Q,
       band_at (sentinelCloudScore dark_scene) "cloudScore" p = Ok (Num q) /\
       q < 0).
Proof.
  intros img bs p Hreq Hnew. split.
  - exists (minAggregate (Num 1) (spec_indicators bs p)).
    split; [now apply cloudScore_at |].
    assert (Hle : forall q, minAggregate (Num 1) (spec_indicators bs p) = Num q ->
                            q <= 1).
    { intros q Hq.
      destruct (minAggregate_lower_bound _ _ _ Hq) as [(x & Hx & Hle) _].
      now injection Hx as <-. }
    split; [exact Hle |].
    destruct (minAggregate (Num 1) (spec_indicators bs p)) as [q |];
      [| reflexivity].
    apply not_true_is_false. intros Hgt. apply vgt_spec in Hgt.
    specialize (Hle q eq_refl). lra.
  - rewrite (cloudScore_at dark_scene dark_bands p);
      [| apply uniform_required | reflexivity].
    eexists. split; [vm_compute; reflexivity |].
    reflexivity.
Qed.

Lemma cloudScore_at_most_one_witness :
  (exists v : value,
     band_at (sentinelCloudScore bright_scene) "cloudScore" (1, 2)%Z = Ok v /\
     (forall q : Q, v = Num q -> q <= 1) /\
     vgt v 1 = false) /\
  (exists q : Q,
     band_at (sentinelCloudScore dark_scene) "cloudScore" (1, 2)%Z = Ok (Num q) /\
     q < 0).
Proof.
  apply (cloudScore_at_most_one bright_scene bright_bands (1, 2)%Z).
  - repeat split.
  - reflexivity.
Defined.

(** ** The linear stretch *)








(** C9 as the specification words it fails: with equal thresholds [rescale]
    raises no error, it returns a band. *)
Lemma rescale_equal_thresholds_no_error :
  rescale (Raster.constant 1) [0.5; 0.5] <> Err InvalidParameter /\
  exists r : band, rescale (Raster.constant 1) [0.5; 0.5] = Ok r.
Proof.
  split; [discriminate |].
  eexists. reflexivity.
Qed.

(** C9, amended.  [rescale] checks nothing: called with low == high it
    raises no error and returns a band.  Its only failure, on any input, is
    Python's index error for a threshold list shorter than two. *)
Theorem rescale_equal_thresholds :
  forall (img : band) (low high : Q),
    low == high ->
    (exists r : band, rescale img [low; high] = Ok r) /\
    (forall e : error, rescale img [low; high] <> Err e) /\
    (forall (thresholds : list Q) (e : error),
        rescale img thresholds = Err e ->
        e = IndexError /\ (List.length thresholds < 2)%nat).
Proof.
  intros img low high _.
  split; [eexists; apply rescale_pair |].
  split; [intros e; rewrite rescale_pair; discriminate |].
  intros [| t0 [| t1 rest]] e H.
  - injection H as <-. split; [reflexivity | simpl; lia].
  - injection H as <-. split; [reflexivity | simpl; lia].
  - discriminate.
Qed.

Lemma rescale_equal_thresholds_witness :
  (exists r : band, rescale (Raster.constant 0.3) [0.5; 0.5] = Ok r) /\
  (forall e : error, rescale (Raster.constant 0.3) [0.5; 0.5] <> Err e) /\
  (forall (thresholds : list Q) (e : error),
      rescale (Raster.constant 0.3) thresholds = Err e ->
      e = IndexError /\ (List.length thresholds < 2)%nat).
Proof.
  apply (rescale_equal_thresholds (Raster.constant 0.3) 0.5 0.5).
  reflexivity.
Defined.

(** ** The shadow projector *)

Lemma round_IZR (n : Z) : Raster.round (IZR n) = n.
Proof.
  unfold Raster.round. symmetry. apply Int_part_spec. split; lra.
Qed.

Lemma azimuth_of_0 : solar_azimuth_rad 0 = (PI / 2)%R.
Proof. unfold solar_azimuth_rad. lra. Qed.

Lemma zenith_of_45 : solar_zenith_rad 45 = (PI / 4)%R.
Proof. unfold solar_zenith_rad. lra. Qed.

Lemma offset_x_1000 :
  Raster.round
    (cos (solar_azimuth_rad 0) * (tan (solar_zenith_rad 45) * 1000) / 10) = 0%Z.
Proof.
  rewrite azimuth_of_0, zenith_of_45, cos_PI2, tan_PI4.
  replace (0 * (1 * 1000) / 10)%R with (IZR 0) by lra.
  apply round_IZR.
Qed.

Lemma offset_y_1000 :
  Raster.round
    (sin (solar_azimuth_rad 0) * (tan (solar_zenith_rad 45) * 1000) / 10) = 100%Z.
Proof.
  rewrite azimuth_of_0, zenith_of_45, sin_PI2, tan_PI4.
  replace (1 * (1 * 1000) / 10)%R with (IZR 100) by lra.
  apply round_IZR.
Qed.

Lemma potentialShadow_1000 (cloudMask : mask) (p : pixel) :
  potentialShadow (solar_zenith_rad 45) (solar_azimuth_rad 0) 10 cloudMask 1000 p =
  cloudMask (fst p - 0, snd p - 100)%Z.
Proof.
  unfold potentialShadow, Raster.translate.
  now rewrite offset_x_1000, offset_y_1000.
Qed.

(** The cloud heights of [shadowMask]. *)
Example cloudHeights_500_to_4000 :
  Raster.sequence 500 4000 500
  = [500; 1000; 1500; 2000; 2500; 3000; 3500; 4000]%Z.
Proof. reflexivity. Qed.

(** The flag [shadowMask] appends, pixel by pixel. *)
Lemma shadows_at (g : globals) (img : image) (cloudMaskType : string)
    (cm G S : band) (az ze : R) (p : pixel) :
  Raster.select img cloudMaskType = Ok cm ->
  Raster.get img "solar_azimuth" = Ok az ->
  Raster.get img "solar_zenith" = Ok ze ->
  Raster.select (toa g) "green" = Ok G ->
  Raster.select (toa g) "swir2" = Ok S ->
  has_band img "shadows" = false ->
  band_at (shadowMask g img cloudMaskType) "shadows" p =
  Ok (of_bool
        ((Raster.collection_max
            (map (potentialShadow (solar_zenith_rad ze) (solar_azimuth_rad az)
                    (scale img) (Raster.gt cm 0.5))
                 (Raster.sequence 500 4000 500)) p
          && negb (Raster.gt cm 0.5 p))
         && Raster.gt (Raster.divide (Raster.subtract G S) (Raster.add G S))
                      0.25 p)).
Proof.
  intros Hcm Haz Hze HG HS Hnew.
  unfold shadowMask, Raster.normalizedDifference.
  rewrite Hcm, Haz, Hze, HG, HS. cbn [bind ret].
  rewrite band_at_addBands by assumption.
  reflexivity.
Qed.

Lemma collection_max_true (stack : list mask) (p : pixel) :
  Raster.collection_max stack p = true <-> exists m, In m stack /\ m p = true.
Proof. unfold Raster.collection_max. apply existsb_exists. Qed.





(** C5, the code at two bindings of the global [toa]: the same image and the
    same cloud band give a shadow at pixel (0, 100) under one binding and
    none under the other. *)
Theorem shadowMask_reads_global_toa :
  band_at (shadowMask toa_dark one_cloud_scene "cloud") "shadows" (0, 100)%Z
    = Ok (Num 1) /\
  band_at (shadowMask toa_light one_cloud_scene "cloud") "shadows" (0, 100)%Z
    = Ok (Num 0).
Proof.
  split.
  - rewrite (shadows_at toa_dark one_cloud_scene "cloud"
               (Raster.of_mask origin_mask) (Raster.constant 0.5)
               (Raster.constant 0.1) 0 45) by reflexivity.
    assert (Hpot : Raster.collection_max
                     (map (potentialShadow (solar_zenith_rad 45)
                             (solar_azimuth_rad 0) (scale one_cloud_scene)
                             (Raster.gt (Raster.of_mask origin_mask) 0.5))
                          (Raster.sequence 500 4000 500)) (0, 100)%Z = true).
    { unfold Raster.collection_max. apply existsb_exists.
      exists (potentialShadow (solar_zenith_rad 45) (solar_azimuth_rad 0) 10
                (Raster.gt (Raster.of_mask origin_mask) 0.5) 1000).
      split.
      - apply in_map. vm_compute. right. left. reflexivity.
      - rewrite potentialShadow_1000. reflexivity. }
    rewrite Hpot. reflexivity.
  - rewrite (shadows_at toa_light one_cloud_scene "cloud"
               (Raster.of_mask origin_mask) (Raster.constant 0.1)
               (Raster.constant 0.5) 0 45) by reflexivity.
    assert (Hd : Raster.gt
                   (Raster.divide
                      (Raster.subtract (Raster.constant 0.1) (Raster.constant 0.5))
                      (Raster.add (Raster.constant 0.1) (Raster.constant 0.5)))
                   0.25 (0, 100)%Z = false) by reflexivity.
    rewrite Hd, andb_false_r. reflexivity.
Qed.

(** C6.  For every input raster and every pixel, the 'shadows' flag and the
    binarized cloud mask it was computed from are never both true. *)
Theorem shadow_excludes_cloud :
  forall (g : globals) (img : image) (cloudMaskType : string)
         (cm G S : band) (az ze : R) (p : pixel),
    Raster.select img cloudMaskType = Ok cm ->
    Raster.get img "solar_azimuth" = Ok az ->
    Raster.get img "solar_zenith" = Ok ze ->
    Raster.select (toa g) "green" = Ok G ->
    Raster.select (toa g) "swir2" = Ok S ->
    has_band img "shadows" = false ->
    exists shadow : value,
      band_at (shadowMask g img cloudMaskType) "shadows" p = Ok shadow /\
      truthy shadow && Raster.gt cm 0.5 p = false.
Proof.
  intros g img ty cm G S az ze p Hcm Haz Hze HG HS Hnew.
  eexists. split; [eapply shadows_at; eassumption |].
  destruct (Raster.gt cm 0.5 p); [| now rewrite andb_false_r].
  simpl. now rewrite andb_false_r.
Qed.

Lemma shadow_excludes_cloud_witness :
  exists shadow : value,
    band_at (shadowMask toa_dark one_cloud_scene "cloud") "shadows" (0, 0)%Z
      = Ok shadow /\
    truthy shadow && Raster.gt (Raster.of_mask origin_mask) 0.5 (0, 0)%Z = false.
Proof.
  apply (shadow_excludes_cloud toa_dark one_cloud_scene "cloud"
           (Raster.of_mask origin_mask) (Raster.constant 0.5)
           (Raster.constant 0.1) 0 45 (0, 0)%Z);
    reflexivity.
Defined.

(** ** Zero denominators *)

Lemma nd_zero_denominator (x y : Q) :
  x + y == 0 -> spec_normalizedDifference (Num x) (Num y) = NaN.
Proof. intros H. unfold spec_normalizedDifference. now apply vdiv_zero. Qed.

Lemma spec_rescale_NaN (low high : Q) : spec_rescale NaN low high = NaN.
Proof. reflexivity. Qed.

(** C8.  Where the two bands of a normalized difference sum to zero the
    result is the sentinel, not a failure, and every threshold test on it is
    false; the combined cloud score at such a pixel is the sentinel and
    fails every threshold (not cloud), and the darkness test of the shadow
    projector fails there (not shadow). *)
Theorem zero_denominator_fails_every_test :
  (forall (img : image) (a b : string) (A B : band) (p : pixel) (x y : Q),
      Raster.select img a = Ok A ->
      Raster.select img b = Ok B ->
      A p = Num x -> B p = Num y -> x + y == 0 ->
      exists nd : band,
        Raster.normalizedDifference img a b = Ok nd /\
        nd p = NaN /\
        forall t : Q, Raster.gt nd t p = false) /\
  (forall (img : image) (bs : cloud_bands) (p : pixel) (x y : Q),
      required_bands img bs ->
      has_band img "cloudScore" = false ->
      b_swir1 bs p = Num y ->
      b_red4 bs p = Num x \/ b_green bs p = Num x ->
      x + y == 0 ->
      exists score : value,
        band_at (sentinelCloudScore img) "cloudScore" p = Ok score /\
        score = NaN /\
        forall t : Q, vgt score t = false) /\
  (forall (g : globals) (img : image) (cloudMaskType : string)
          (cm G S : band) (az ze : R) (p : pixel) (x y : Q),
      Raster.select img cloudMaskType = Ok cm ->
      Raster.get img "solar_azimuth" = Ok az ->
      Raster.get img "solar_zenith" = Ok ze ->
      Raster.select (toa g) "green" = Ok G ->
      Raster.select (toa g) "swir2" = Ok S ->
      has_band img "shadows" = false ->
      G p = Num x -> S p = Num y -> x + y == 0 ->
      band_at (shadowMask g img cloudMaskType) "shadows" p = Ok (Num 0)).
Proof.
  split; [| split].
  - intros img a b A B p x y HA HB HAp HBp Hsum.
    unfold Raster.normalizedDifference. rewrite HA, HB. cbn [bind ret].
    eexists. split; [reflexivity |].
    assert (Hnd : Raster.divide (Raster.subtract A B) (Raster.add A B) p = NaN).
    { unfold Raster.divide, Raster.add. rewrite HAp, HBp.
      now apply vdiv_zero. }
    split; [exact Hnd |].
    intros t. unfold Raster.gt. now rewrite Hnd.
  - intros img bs p x y Hreq Hnew Hsw Hxs Hsum.
    exists NaN. split; [| split; [reflexivity | reflexivity]].
    rewrite (cloudScore_at img bs p Hreq Hnew). f_equal.
    apply minAggregate_propagates. unfold spec_indicators.
    rewrite Hsw. destruct Hxs as [Hx | Hx]; rewrite Hx.
    + rewrite (nd_zero_denominator _ _ Hsum), spec_rescale_NaN.
      simpl. tauto.
    + rewrite (nd_zero_denominator _ _ Hsum), spec_rescale_NaN.
      simpl. tauto.
  - intros g img ty cm G S az ze p x y Hcm Haz Hze HG HS Hnew HGp HSp Hsum.
    rewrite (shadows_at g img ty cm G S az ze p Hcm Haz Hze HG HS Hnew).
    assert (Hd : Raster.gt (Raster.divide (Raster.subtract G S) (Raster.add G S))
                   0.25 p = false).
    { unfold Raster.gt, Raster.divide, Raster.add. rewrite HGp, HSp.
      change (vadd (Num x) (Num y)) with (Num (x + y)).
      now rewrite vdiv_zero. }
    now rewrite Hd, andb_false_r.
Qed.

Lemma zero_denominator_fails_every_test_witness :
  (exists nd : band,
     Raster.normalizedDifference void_scene "green" "swir2" = Ok nd /\
     nd (0, 0)%Z = NaN /\
     forall t : Q, Raster.gt nd t (0, 0)%Z = false) /\
  (exists score : value,
     band_at (sentinelCloudScore void_scene) "cloudScore" (0, 0)%Z = Ok score /\
     score = NaN /\
     forall t : Q, vgt score t = false) /\
  band_at (shadowMask (mkGlobals void_scene) one_cloud_scene "cloud")
    "shadows" (0, 100)%Z = Ok (Num 0).
Proof.
  split; [| split].
  - apply (proj1 zero_denominator_fails_every_test void_scene "green" "swir2"
             (Raster.constant 0) (Raster.constant 0) (0, 0)%Z 0 0);
      reflexivity.
  - apply (proj1 (proj2 zero_denominator_fails_every_test) void_scene
             void_bands (0, 0)%Z 0 0);
      [repeat split | reflexivity | reflexivity | left; reflexivity | reflexivity].
  - apply (proj2 (proj2 zero_denominator_fails_every_test)
             (mkGlobals void_scene) one_cloud_scene "cloud"
             (Raster.of_mask origin_mask) (Raster.constant 0)
             (Raster.constant 0) 0%R 45%R (0, 100)%Z 0 0);
      reflexivity.
Defined.

(** * Further properties of the notebook *)

(** ** The linear stretch, in general *)

Lemma stretch_value (x low high : Q) :
  ~ low == high ->
  vdiv (vsub (Num x) (Num low)) (Num (high - low)) = Num ((x - low) / (high - low)).
Proof.
  intros H. unfold vsub, lift2. apply vdiv_Num. intros Hd. apply H. lra.
Qed.

Lemma stretch_inverse (x low high : Q) :
  ~ low == high ->
  (x - low) / (high - low) * (high - low) + low == x.
Proof. intros H. field. intros Hd. apply H. lra. Qed.

(** X1.  With two different thresholds [rescale] stretches between them:
    a numeric pixel stays numeric, a pixel equal to the first threshold
    becomes 0 and a pixel equal to the second becomes 1. *)
Theorem rescale_endpoints :
  forall (img : band) (low high : Q) (p : pixel) (x : Q),
    ~ low == high ->
    img p = Num x ->
    exists (r : band) (y : Q),
      rescale img [low; high] = Ok r /\
      r p = Num y /\
      (x == low -> y == 0) /\
      (x == high -> y == 1).
Proof.
  intros img low high p x Hne Hx.
  eexists. exists ((x - low) / (high - low)).
  split; [apply rescale_pair |].
  unfold Raster.divide, Raster.subtract, Raster.constant.
  rewrite Hx, (stretch_value x low high Hne).
  split; [reflexivity |].
  assert (Hd : ~ high - low == 0) by (intros Hd; apply Hne; lra).
  split; intros Hxe.
  - rewrite Hxe. field. exact Hd.
  - rewrite Hxe. field. exact Hd.
Qed.

Lemma rescale_endpoints_witness :
  exists (r : band) (y : Q),
    rescale (Raster.constant 0.5) [0.1; 0.5] = Ok r /\
    r (0, 0)%Z = Num y /\
    (0.5 == 0.1 -> y == 0) /\
    (0.5 == 0.5 -> y == 1).
Proof.
  apply (rescale_endpoints (Raster.constant 0.5) 0.1 0.5 (0, 0)%Z 0.5).
  - intros H. vm_compute in H. discriminate.
  - reflexivity.
Defined.

(** X2.  The direction of the stretch follows the order of the thresholds:
    with low < high a larger input never gives a smaller output, with
    high < low it never gives a larger one. *)
Theorem rescale_monotone :
  forall (img : band) (low high : Q) (p1 p2 : pixel) (x1 x2 : Q),
    ~ low == high ->
    img p1 = Num x1 ->
    img p2 = Num x2 ->
    x1 < x2 ->
    exists (r : band) (y1 y2 : Q),
      rescale img [low; high] = Ok r /\
      r p1 = Num y1 /\
      r p2 = Num y2 /\
      (low < high -> y1 <= y2) /\
      (high < low -> y2 <= y1).
Proof.
  intros img low high p1 p2 x1 x2 Hne H1 H2 Hlt.
  eexists. exists ((x1 - low) / (high - low)), ((x2 - low) / (high - low)).
  split; [apply rescale_pair |].
  unfold Raster.divide, Raster.subtract, Raster.constant.
  rewrite H1, H2, !(stretch_value _ low high Hne).
  split; [reflexivity |]. split; [reflexivity |].
  pose proof (stretch_inverse x1 low high Hne) as I1.
  pose proof (stretch_inverse x2 low high Hne) as I2.
  set (y1 := (x1 - low) / (high - low)) in *.
  set (y2 := (x2 - low) / (high - low)) in *.
  split; intros Hord.
  - apply Qnot_lt_le. intros Hle.
    assert (0 <= (y1 - y2) * (high - low)) by (apply Qmult_le_0_compat; lra).
    lra.
  - apply Qnot_lt_le. intros Hle.
    assert (0 <= (y2 - y1) * (low - high)) by (apply Qmult_le_0_compat; lra).
    lra.
Qed.

Lemma rescale_monotone_witness :
  exists (r : band) (y1 y2 : Q),
    rescale (fun p => Num (inject_Z (fst p))) [0.8; 0.6] = Ok r /\
    r (1, 0)%Z = Num y1 /\
    r (2, 0)%Z = Num y2 /\
    (0.8 < 0.6 -> y1 <= y2) /\
    (0.6 < 0.8 -> y2 <= y1).
Proof.
  apply (rescale_monotone (fun p => Num (inject_Z (fst p))) 0.8 0.6
           (1, 0)%Z (2, 0)%Z (inject_Z 1) (inject_Z 2)).
  - intros H. vm_compute in H. discriminate.
  - reflexivity.
  - reflexivity.
  - reflexivity.
Defined.

(** ** The cloud scorer: failure, what it keeps, what it decides *)

Lemma select_cases (img : image) (name : string) :
  (exists b, Raster.select img name = Ok b /\ has_band img name = true) \/
  (Raster.select img name = Err (MissingBand name) /\ has_band img name = false).
Proof.
  unfold Raster.select, has_band.
  destruct (lookup name (bands img)) as [b |]; [left; eauto | right; auto].
Qed.

Lemma select_has_band (img : image) (name : string) (b : band) :
  Raster.select img name = Ok b -> has_band img name = true.
Proof.
  unfold Raster.select, has_band.
  destruct (lookup name (bands img)); [reflexivity | discriminate].
Qed.

Ltac missing_band n :=
  right; exists n; split; [simpl; tauto | split; [assumption | reflexivity]].

Lemma sentinelCloudScore_cases (img : image) :
  (exists bs : cloud_bands,
     required_bands img bs /\
     sentinelCloudScore img =
     Ok (Raster.addBands img "cloudScore"
           (fun p => minAggregate (Num 1) (spec_indicators bs p)))) \/
  (exists n : string,
     In n ["blue"; "aerosol"; "cirrus"; "red"; "green"; "red4"; "swir1"] /\
     has_band img n = false /\
     sentinelCloudScore img = Err (MissingBand n)).
Proof.
  unfold sentinelCloudScore, Raster.normalizedDifference.
  destruct (select_cases img "blue") as [(bl & Ebl & _) | (Ebl & Hbl)];
    rewrite Ebl; cbn [bind]; [| missing_band "blue"].
  rewrite rescale_pair; cbn [bind].
  destruct (select_cases img "aerosol") as [(ae & Eae & _) | (Eae & Hae)];
    rewrite Eae; cbn [bind]; [| missing_band "aerosol"].
  rewrite rescale_pair; cbn [bind].
  destruct (select_cases img "cirrus") as [(ci & Eci & _) | (Eci & Hci)];
    rewrite Eci; cbn [bind]; [| missing_band "cirrus"].
  rewrite rescale_pair; cbn [bind].
  destruct (select_cases img "red") as [(re & Ere & _) | (Ere & Hre)];
    rewrite Ere; cbn [bind]; [| missing_band "red"].
  destruct (select_cases img "green") as [(gr & Egr & _) | (Egr & Hgr)];
    rewrite Egr; cbn [bind]; [| missing_band "green"].
  rewrite rescale_pair; cbn [bind].
  destruct (select_cases img "red4") as [(r4 & Er4 & _) | (Er4 & Hr4)];
    rewrite Er4; cbn [bind]; [| missing_band "red4"].
  destruct (select_cases img "swir1") as [(s1 & Es1 & _) | (Es1 & Hs1)];
    rewrite Es1; cbn [bind ret]; [| missing_band "swir1"].
  rewrite !rescale_pair; cbn [bind].
  left. exists (mkCloudBands bl ae ci re gr r4 s1).
  split; [repeat split; assumption | reflexivity].
Qed.

(** X3.  [sentinelCloudScore] returns exactly when the image holds the seven
    bands it reads; when one of them is absent it fails with the
    missing-band error of an absent band and substitutes nothing. *)
Theorem sentinelCloudScore_succeeds_iff :
  forall img : image,
    ((exists out, sentinelCloudScore img = Ok out) <->
     forallb (has_band img)
       ["blue"; "aerosol"; "cirrus"; "red"; "green"; "red4"; "swir1"] = true) /\
    (forallb (has_band img)
       ["blue"; "aerosol"; "cirrus"; "red"; "green"; "red4"; "swir1"] = false ->
     exists n : string,
       In n ["blue"; "aerosol"; "cirrus"; "red"; "green"; "red4"; "swir1"] /\
       has_band img n = false /\
       sentinelCloudScore img = Err (MissingBand n)).
Proof.
  intros img.
  destruct (sentinelCloudScore_cases img)
    as [(bs & Hreq & Hok) | (n & Hin & Hn & Herr)].
  - assert (Hall : forallb (has_band img)
              ["blue"; "aerosol"; "cirrus"; "red"; "green"; "red4"; "swir1"]
            = true).
    { destruct Hreq as (H1 & H2 & H3 & H4 & H5 & H6 & H7). simpl.
      now rewrite (select_has_band _ _ _ H1), (select_has_band _ _ _ H2),
        (select_has_band _ _ _ H3), (select_has_band _ _ _ H4),
        (select_has_band _ _ _ H5), (select_has_band _ _ _ H6),
        (select_has_band _ _ _ H7). }
    split; [split; [intros _; exact Hall | intros _; eauto] |].
    intros Hf. congruence.
  - assert (Hnot : forallb (has_band img)
              ["blue"; "aerosol"; "cirrus"; "red"; "green"; "red4"; "swir1"]
            = false).
    { apply not_true_is_false. intros Hall.
      rewrite forallb_forall in Hall. specialize (Hall n Hin). congruence. }
    split; [split |].
    + intros [out Hout]. congruence.
    + intros Hall. congruence.
    + intros _. exists n. auto.
Qed.

Lemma sentinelCloudScore_succeeds_iff_witness :
  exists n : string,
    In n ["blue"; "aerosol"; "cirrus"; "red"; "green"; "red4"; "swir1"] /\
    has_band (qa_scene 0) n = false /\
    sentinelCloudScore (qa_scene 0) = Err (MissingBand n).
Proof.
  apply (proj2 (sentinelCloudScore_succeeds_iff (qa_scene 0))).
  reflexivity.
Defined.

Lemma get_cases (img : image) (name : string) :
  (exists x, Raster.get img name = Ok x /\ has_property img name = true) \/
  (Raster.get img name = Err (MissingProperty name) /\
   has_property img name = false).
Proof.
  unfold Raster.get, has_property.
  destruct (lookup name (properties img)) as [x |]; [left; eauto | right; auto].
Qed.

Lemma ESAcloudMask_cases (img : image) :
  (exists (qa : band) (cloud : mask),
     Raster.select img "QA60" = Ok qa /\
     ESAcloudMask img = Ok (Raster.addBands img "ESA_clouds" (Raster.of_mask cloud))) \/
  (has_band img "QA60" = false /\ ESAcloudMask img = Err (MissingBand "QA60")).
Proof.
  unfold ESAcloudMask.
  destruct (select_cases img "QA60") as [(qa & E & _) | (E & H)]; rewrite E.
  - left. eexists. eexists. split; reflexivity.
  - right. split; [assumption | reflexivity].
Qed.

Lemma shadowMask_cases (g : globals) (img : image) (cloudMaskType : string) :
  (exists (cm G S : band) (az ze : R) (shadows : mask),
     Raster.select img cloudMaskType = Ok cm /\
     Raster.get img "solar_azimuth" = Ok az /\
     Raster.get img "solar_zenith" = Ok ze /\
     Raster.select (toa g) "green" = Ok G /\
     Raster.select (toa g) "swir2" = Ok S /\
     shadowMask g img cloudMaskType =
     Ok (Raster.addBands img "shadows" (Raster.of_mask shadows))) \/
  ((exists e, shadowMask g img cloudMaskType = Err e) /\
   has_band img cloudMaskType && has_property img "solar_azimuth"
   && has_property img "solar_zenith" && has_band (toa g) "green"
   && has_band (toa g) "swir2" = false).
Proof.
  unfold shadowMask, Raster.normalizedDifference.
  destruct (select_cases img cloudMaskType) as [(cm & E1 & H1) | (E1 & H1)];
    rewrite E1, H1; cbn [bind];
    [| right; split; [eexists; reflexivity | reflexivity]].
  destruct (get_cases img "solar_azimuth") as [(az & E2 & H2) | (E2 & H2)];
    rewrite E2, H2; cbn [bind];
    [| right; split; [eexists; reflexivity | reflexivity]].
  destruct (get_cases img "solar_zenith") as [(ze & E3 & H3) | (E3 & H3)];
    rewrite E3, H3; cbn [bind];
    [| right; split; [eexists; reflexivity | reflexivity]].
  destruct (select_cases (toa g) "green") as [(G & E4 & H4) | (E4 & H4)];
    rewrite E4, H4; cbn [bind];
    [| right; split; [eexists; reflexivity | reflexivity]].
  destruct (select_cases (toa g) "swir2") as [(S & E5 & H5) | (E5 & H5)];
    rewrite E5, H5; cbn [bind ret];
    [| right; split; [eexists; reflexivity | reflexivity]].
  left. exists cm, G, S, az, ze. eexists. repeat split; reflexivity.
Qed.

Lemma addBands_keeps (img : image) (name : string) (b : band) :
  (exists name' b', bands (Raster.addBands img name b) = (bands img ++ [(name', b')])%list) /\
  properties (Raster.addBands img name b) = properties img /\
  scale (Raster.addBands img name b) = scale img /\
  forall n c, Raster.select img n = Ok c ->
              Raster.select (Raster.addBands img name b) n = Ok c.
Proof.
  split; [exists name, b; reflexivity |].
  split; [reflexivity |]. split; [reflexivity |].
  intros n c. unfold Raster.select, Raster.addBands; simpl.
  destruct (lookup n (bands img)) as [c' |] eqn:E; [| discriminate].
  intros H. injection H as <-. now rewrite (lookup_app_some _ _ _ _ E).
Qed.

(** X4.  The three mask builders only append: whenever [sentinelCloudScore],
    [ESAcloudMask] or [shadowMask] returns, its output is the input image
    with one more band at the end; the metadata and the scale are unchanged
    and every band that could be selected before is selected unchanged. *)
Theorem mask_builders_only_append :
  forall (g : globals) (img out : image) (cloudMaskType : string),
    sentinelCloudScore img = Ok out \/
    ESAcloudMask img = Ok out \/
    shadowMask g img cloudMaskType = Ok out ->
    (exists name b, bands out = (bands img ++ [(name, b)])%list) /\
    properties out = properties img /\
    scale out = scale img /\
    forall n c, Raster.select img n = Ok c -> Raster.select out n = Ok c.
Proof.
  intros g img out ty [H | [H | H]].
  - destruct (sentinelCloudScore_cases img) as [(bs & _ & E) | (n & _ & _ & E)];
      rewrite E in H; [| discriminate].
    injection H as <-. apply addBands_keeps.
  - destruct (ESAcloudMask_cases img) as [(qa & c & _ & E) | (_ & E)];
      rewrite E in H; [| discriminate].
    injection H as <-. apply addBands_keeps.
  - destruct (shadowMask_cases g img ty)
      as [(cm & G & S & az & ze & sh & _ & _ & _ & _ & _ & E) | ((e & E) & _)];
      rewrite E in H; [| discriminate].
    injection H as <-. apply addBands_keeps.
Qed.

Lemma mask_builders_only_append_witness :
  (exists name b,
     bands (Raster.addBands (qa_scene 1024) "ESA_clouds"
              (Raster.of_mask (fun _ => true)))
     = (bands (qa_scene 1024) ++ [(name, b)])%list) /\
  properties (Raster.addBands (qa_scene 1024) "ESA_clouds"
                (Raster.of_mask (fun _ => true)))
  = properties (qa_scene 1024) /\
  scale (Raster.addBands (qa_scene 1024) "ESA_clouds"
           (Raster.of_mask (fun _ => true)))
  = scale (qa_scene 1024) /\
  forall n c,
    Raster.select (qa_scene 1024) n = Ok c ->
    Raster.select (Raster.addBands (qa_scene 1024) "ESA_clouds"
                     (Raster.of_mask (fun _ => true))) n = Ok c.
Proof.
  apply (mask_builders_only_append toa_dark (qa_scene 1024)
           (Raster.addBands (qa_scene 1024) "ESA_clouds"
              (Raster.of_mask (fun _ => true))) "cloud").
  right. left. reflexivity.
Defined.

Lemma quotient_times (a b : Q) : ~ b == 0 -> a / b * b == a.
Proof. intros H. field. exact H. Qed.

Lemma quotient_above (t a b : Q) : 0 < b -> (t < a / b <-> t * b < a).
Proof.
  intros Hb. assert (Hq : a / b * b == a) by (apply quotient_times; lra).
  split; intros H.
  - assert (0 < (a / b - t) * b) by (apply Qmult_lt_0_compat; lra). lra.
  - apply Qnot_le_lt. intros Hle.
    assert (0 <= (t - a / b) * b) by (apply Qmult_le_0_compat; lra). lra.
Qed.

Lemma quotient_below (t a b : Q) : 0 < b -> (a / b < t <-> a < t * b).
Proof.
  intros Hb. assert (Hq : a / b * b == a) by (apply quotient_times; lra).
  split; intros H.
  - assert (0 < (t - a / b) * b) by (apply Qmult_lt_0_compat; lra). lra.
  - apply Qnot_le_lt. intros Hle.
    assert (0 <= (a / b - t) * b) by (apply Qmult_le_0_compat; lra). lra.
Qed.

Lemma stretch_above_rising (x low high t : Q) :
  low < high ->
  (t < (x - low) / (high - low) <-> low + t * (high - low) < x).
Proof.
  intros H. rewrite (quotient_above t (x - low) (high - low)) by lra.
  split; intros; lra.
Qed.

Lemma stretch_above_falling (x low high t : Q) :
  high < low ->
  (t < (x - low) / (high - low) <-> x < low + t * (high - low)).
Proof.
  intros H.
  assert (E : (x - low) / (high - low) == (low - x) / (low - high)).
  { field. split; intros E; lra. }
  rewrite E, (quotient_above t (low - x) (low - high)) by lra.
  split; intros; lra.
Qed.

(** X5.  What the 0.5 threshold on the combined score decides, away from
    the thresholds.  At a pixel with numeric bands and positive sums
    red4 + swir1 and green + swir1: if blue >= 0.301, aerosol >= 0.201,
    aerosol + cirrus >= 0.176, red + green + blue >= 0.501,
    red4 - swir1 >= 0.001 (red4 + swir1) and
    green - swir1 <= 0.699 (green + swir1), the score exceeds 0.5; and if the
    score exceeds 0.5 then blue >= 0.299, aerosol >= 0.199,
    aerosol + cirrus >= 0.174, red + green + blue >= 0.499,
    red4 - swir1 >= -0.001 (red4 + swir1) and
    green - swir1 <= 0.701 (green + swir1). *)
Theorem cloud_decision_rule :
  forall (img : image) (bs : cloud_bands) (p : pixel)
         (bl ae ci re gr r4 s1 : Q),
    required_bands img bs ->
    has_band img "cloudScore" = false ->
    b_blue bs p = Num bl -> b_aerosol bs p = Num ae ->
    b_cirrus bs p = Num ci -> b_red bs p = Num re ->
    b_green bs p = Num gr -> b_red4 bs p = Num r4 ->
    b_swir1 bs p = Num s1 ->
    0 < r4 + s1 -> 0 < gr + s1 ->
    exists score : value,
      band_at (sentinelCloudScore img) "cloudScore" p = Ok score /\
      (0.301 <= bl /\ 0.201 <= ae /\ 0.176 <= ae + ci /\
       0.501 <= re + gr + bl /\ 0.001 * (r4 + s1) <= r4 - s1 /\
       gr - s1 <= 0.699 * (gr + s1) ->
       vgt score 0.5 = true) /\
      (vgt score 0.5 = true ->
       0.299 <= bl /\ 0.199 <= ae /\ 0.174 <= ae + ci /\
       0.499 <= re + gr + bl /\ -0.001 * (r4 + s1) <= r4 - s1 /\
       gr - s1 <= 0.701 * (gr + s1)).
Proof.
  intros img bs p bl ae ci re gr r4 s1 Hreq Hnew
         Hbl Hae Hci Hre Hgr Hr4 Hs1 Dmi Dsi.
  rewrite (cloudScore_at img bs p Hreq Hnew).
  unfold spec_indicators, spec_rescale, spec_normalizedDifference.
  rewrite Hbl, Hae, Hci, Hre, Hgr, Hr4, Hs1.
  cbn [vadd vsub lift2].
  rewrite !vdiv_Num by (intros E; lra).
  cbn [vadd vsub lift2].
  rewrite !vdiv_Num by (intros E; lra).
  cbn [minAggregate fold_left vmin lift2].
  eexists. split; [reflexivity |].
  rewrite vgt_spec, !Q.min_glb_lt_iff.
  assert (E0 : 0.5 < 1) by lra.
  assert (E1 : 0.5 < (bl - 0.1) / (0.5 - 0.1) <-> 0.3 < bl).
  { rewrite stretch_above_rising by lra. split; intros; lra. }
  assert (E2 : 0.5 < (ae - 0.1) / (0.3 - 0.1) <-> 0.2 < ae).
  { rewrite stretch_above_rising by lra. split; intros; lra. }
  assert (E3 : 0.5 < (ae + ci - 0.15) / (0.2 - 0.15) <-> 0.175 < ae + ci).
  { rewrite stretch_above_rising by lra. split; intros; lra. }
  assert (E4 : 0.5 < (re + gr + bl - 0.2) / (0.8 - 0.2) <-> 0.5 < re + gr + bl).
  { rewrite stretch_above_rising by lra. split; intros; lra. }
  assert (E5 : 0.5 < ((r4 - s1) / (r4 + s1) - -0.1) / (0.1 - -0.1) <-> s1 < r4).
  { rewrite stretch_above_rising by lra.
    assert (T : -0.1 + 0.5 * (0.1 - -0.1) == 0) by lra.
    rewrite T, quotient_above by lra. split; intros; lra. }
  assert (E6 : 0.5 < ((gr - s1) / (gr + s1) - 0.8) / (0.6 - 0.8)
               <-> gr - s1 < 0.7 * (gr + s1)).
  { rewrite stretch_above_falling by lra.
    assert (T : 0.8 + 0.5 * (0.6 - 0.8) == 0.7) by lra.
    rewrite T, quotient_below by lra. reflexivity. }
  rewrite E1, E2, E3, E4, E5, E6.
  split.
  - intros (A1 & A2 & A3 & A4 & A5 & A6). repeat split; lra.
  - intros ((((((_ & A1) & A2) & A3) & A4) & A5) & A6). repeat split; lra.
Qed.

Lemma cloud_decision_rule_witness :
  exists score : value,
    band_at (sentinelCloudScore bright_scene) "cloudScore" (0, 0)%Z = Ok score /\
    (0.301 <= 1 /\ 0.201 <= 1 /\ 0.176 <= 1 + 1 /\
     0.501 <= 1 + 1 + 1 /\ 0.001 * (1 + 0.5) <= 1 - 0.5 /\
     1 - 0.5 <= 0.699 * (1 + 0.5) ->
     vgt score 0.5 = true) /\
    (vgt score 0.5 = true ->
     0.299 <= 1 /\ 0.199 <= 1 /\ 0.174 <= 1 + 1 /\
     0.499 <= 1 + 1 + 1 /\ -0.001 * (1 + 0.5) <= 1 - 0.5 /\
     1 - 0.5 <= 0.701 * (1 + 0.5)).
Proof.
  apply (cloud_decision_rule bright_scene bright_bands (0, 0)%Z
           1 1 1 1 1 1 0.5);
    try reflexivity.
  repeat split.
Defined.

(** ** The bitmask decoder and the other bits *)

Lemma ESA_flag (qa : band) (p : pixel) (v : Z) :
  qa p = Num (inject_Z v) ->
  Raster.Not
    (Raster.And (Raster.eq (Raster.bitwiseAnd qa (2 ^ 10)) 0)
                (Raster.eq (Raster.bitwiseAnd qa (2 ^ 11)) 0)) p
  = (Z.testbit v 10 || Z.testbit v 11)%bool.
Proof.
  intros Hv.
  unfold Raster.Not, Raster.And, Raster.eq, Raster.bitwiseAnd.
  rewrite Hv, !bit_test by lia.
  now destruct (Z.testbit v 10), (Z.testbit v 11).
Qed.

Lemma ESA_clouds_at (img : image) (qa : band) (p : pixel) (v : Z) :
  Raster.select img "QA60" = Ok qa ->
  has_band img "ESA_clouds" = false ->
  qa p = Num (inject_Z v) ->
  band_at (ESAcloudMask img) "ESA_clouds" p
  = Ok (of_bool (Z.testbit v 10 || Z.testbit v 11)).
Proof.
  intros Hqa Hnew Hv. unfold ESAcloudMask. rewrite Hqa. cbn [bind ret].
  rewrite band_at_addBands by assumption.
  unfold Raster.of_mask. now rewrite (ESA_flag qa p v Hv).
Qed.

(** X6.  No bit of the QA value other than bits 10 and 11 reaches the cloud
    flag: two pixels whose QA values agree on those two bits (agree after
    masking with 3072) get the same flag. *)
Theorem ESAcloudMask_ignores_other_bits :
  forall (img : image) (qa : band) (p1 p2 : pixel) (v1 v2 : Z),
    Raster.select img "QA60" = Ok qa ->
    has_band img "ESA_clouds" = false ->
    qa p1 = Num (inject_Z v1) ->
    qa p2 = Num (inject_Z v2) ->
    Z.land v1 3072 = Z.land v2 3072 ->
    band_at (ESAcloudMask img) "ESA_clouds" p1
    = band_at (ESAcloudMask img) "ESA_clouds" p2.
Proof.
  intros img qa p1 p2 v1 v2 Hqa Hnew H1 H2 Hbits.
  rewrite (ESA_clouds_at img qa p1 v1 Hqa Hnew H1),
          (ESA_clouds_at img qa p2 v2 Hqa Hnew H2).
  assert (B : forall v n, (n = 10 \/ n = 11)%Z ->
                          Z.testbit (Z.land v 3072) n = Z.testbit v n).
  { intros v n [-> | ->]; rewrite Z.land_spec; simpl; apply andb_true_r. }
  rewrite <- (B v1 10%Z), <- (B v1 11%Z), <- (B v2 10%Z), <- (B v2 11%Z) by auto.
  now rewrite Hbits.
Qed.

Lemma ESAcloudMask_ignores_other_bits_witness :
  band_at (ESAcloudMask
             (mkImage [("QA60", fun p => Num (inject_Z (fst p)))] [] 60))
          "ESA_clouds" (1024, 0)%Z
  = band_at (ESAcloudMask
               (mkImage [("QA60", fun p => Num (inject_Z (fst p)))] [] 60))
            "ESA_clouds" (1279, 0)%Z.
Proof.
  apply (ESAcloudMask_ignores_other_bits
           (mkImage [("QA60", fun p => Num (inject_Z (fst p)))] [] 60)
           (fun p => Num (inject_Z (fst p))) (1024, 0)%Z (1279, 0)%Z 1024 1279);
    reflexivity.
Defined.

(** ** The shadow projector: failure, cloud-free scenes, a low sun *)

(** X7.  [shadowMask] returns exactly when the image holds the selected
    cloud band and the two solar angles, and the notebook's global [toa]
    (not the image) holds the bands green and swir2. *)
Theorem shadowMask_succeeds_iff :
  forall (g : globals) (img : image) (cloudMaskType : string),
    (exists out, shadowMask g img cloudMaskType = Ok out) <->
    has_band img cloudMaskType && has_property img "solar_azimuth"
    && has_property img "solar_zenith" && has_band (toa g) "green"
    && has_band (toa g) "swir2" = true.
Proof.
  intros g img ty.
  destruct (shadowMask_cases g img ty)
    as [(cm & G & S & az & ze & sh & H1 & H2 & H3 & H4 & H5 & E)
       | ((e & E) & Hf)].
  - split; [intros _ | intros _; eauto].
    rewrite (select_has_band _ _ _ H1), (select_has_band _ _ _ H4),
      (select_has_band _ _ _ H5).
    unfold has_property. unfold Raster.get in H2, H3.
    destruct (lookup "solar_azimuth" (properties img)); [| discriminate].
    destruct (lookup "solar_zenith" (properties img)); [| discriminate].
    reflexivity.
  - split; [intros [out Hout]; congruence | intros Ht; congruence].
Qed.

(** X8.  When a pixel is flagged shadow.  The 'shadows' flag is 1 exactly
    when the pixel is not cloud (band not above 0.5), the normalized
    difference of the global [toa]'s green and swir2 exceeds 0.25 there,
    and for one of the heights 500, 1000, ..., 4000 the shifted cloud mask
    covers the pixel; otherwise it is 0. *)
Theorem shadow_flag_iff :
  forall (g : globals) (img : image) (cloudMaskType : string)
         (cm G S : band) (az ze : R) (p : pixel),
    Raster.select img cloudMaskType = Ok cm ->
    Raster.get img "solar_azimuth" = Ok az ->
    Raster.get img "solar_zenith" = Ok ze ->
    Raster.select (toa g) "green" = Ok G ->
    Raster.select (toa g) "swir2" = Ok S ->
    has_band img "shadows" = false ->
    exists flag : bool,
      band_at (shadowMask g img cloudMaskType) "shadows" p = Ok (of_bool flag) /\
      (flag = true <->
       vgt (cm p) 0.5 = false /\
       vgt (vdiv (vsub (G p) (S p)) (vadd (G p) (S p))) 0.25 = true /\
       exists k : Z,
         (1 <= k <= 8)%Z /\
         potentialShadow (solar_zenith_rad ze) (solar_azimuth_rad az)
           (scale img) (Raster.gt cm 0.5) (500 * k) p = true).
Proof.
  intros g img ty cm G S az ze p Hcm Haz Hze HG HS Hnew.
  eexists. split; [eapply shadows_at; eassumption |].
  rewrite !andb_true_iff, negb_true_iff, collection_max_true.
  unfold Raster.gt at 2 3, Raster.divide, Raster.subtract, Raster.add.
  split.
  - intros [[(m & Hin & Hm) Hc] Hd]. split; [exact Hc |]. split; [exact Hd |].
    apply in_map_iff in Hin. destruct Hin as (h & <- & Hh).
    vm_compute in Hh.
    decompose [or] Hh; try contradiction; subst h;
      [exists 1%Z | exists 2%Z | exists 3%Z | exists 4%Z
       | exists 5%Z | exists 6%Z | exists 7%Z | exists 8%Z];
      (split; [lia | exact Hm]).
  - intros (Hc & Hd & k & Hk & Hm). split; [split |]; try assumption.
    exists (potentialShadow (solar_zenith_rad ze) (solar_azimuth_rad az)
              (scale img) (Raster.gt cm 0.5) (500 * k)).
    split; [| exact Hm].
    apply in_map.
    assert (Hks : (k = 1 \/ k = 2 \/ k = 3 \/ k = 4 \/ k = 5 \/ k = 6
                   \/ k = 7 \/ k = 8)%Z) by lia.
    decompose [or] Hks; subst k; vm_compute; tauto.
Qed.

Lemma shadow_flag_iff_witness :
  exists flag : bool,
    band_at (shadowMask toa_dark one_cloud_scene "cloud") "shadows" (0, 100)%Z
    = Ok (of_bool flag) /\
    (flag = true <->
     vgt (Raster.of_mask origin_mask (0, 100)%Z) 0.5 = false /\
     vgt (vdiv (vsub (Raster.constant 0.5 (0, 100)%Z)
                     (Raster.constant 0.1 (0, 100)%Z))
               (vadd (Raster.constant 0.5 (0, 100)%Z)
                     (Raster.constant 0.1 (0, 100)%Z))) 0.25 = true /\
     exists k : Z,
       (1 <= k <= 8)%Z /\
       potentialShadow (solar_zenith_rad 45) (solar_azimuth_rad 0)
         (scale one_cloud_scene)
         (Raster.gt (Raster.of_mask origin_mask) 0.5) (500 * k) (0, 100)%Z
       = true).
Proof.
  apply (shadow_flag_iff toa_dark one_cloud_scene "cloud"
           (Raster.of_mask origin_mask) (Raster.constant 0.5)
           (Raster.constant 0.1) 0 45 (0, 100)%Z);
    reflexivity.
Defined.

(** X9.  A scene without clouds has no shadows: when the selected band is
    nowhere above 0.5, the 'shadows' flag is 0 at every pixel. *)
Theorem no_cloud_no_shadow :
  forall (g : globals) (img : image) (cloudMaskType : string)
         (cm G S : band) (az ze : R),
    Raster.select img cloudMaskType = Ok cm ->
    Raster.get img "solar_azimuth" = Ok az ->
    Raster.get img "solar_zenith" = Ok ze ->
    Raster.select (toa g) "green" = Ok G ->
    Raster.select (toa g) "swir2" = Ok S ->
    has_band img "shadows" = false ->
    (forall q : pixel, vgt (cm q) 0.5 = false) ->
    forall p : pixel,
      band_at (shadowMask g img cloudMaskType) "shadows" p = Ok (Num 0).
Proof.
  intros g img ty cm G S az ze Hcm Haz Hze HG HS Hnew Hclear p.
  rewrite (shadows_at g img ty cm G S az ze p Hcm Haz Hze HG HS Hnew).
  destruct (Raster.collection_max _ p) eqn:E; [| reflexivity].
  apply collection_max_true in E. destruct E as (m & Hin & Hm).
  apply in_map_iff in Hin. destruct Hin as (h & <- & _).
  unfold potentialShadow, Raster.translate, Raster.gt in Hm.
  rewrite Hclear in Hm. discriminate.
Qed.

Lemma no_cloud_no_shadow_witness :
  band_at (shadowMask toa_dark dark_scene "blue") "shadows" (4, 2)%Z
  = Ok (Num 0).
Proof.
  refine (no_cloud_no_shadow toa_dark dark_scene "blue"
            (Raster.constant 0.05) (Raster.constant 0.5) (Raster.constant 0.1)
            0 45 _ _ _ _ _ _ _ (4, 2)%Z);
    reflexivity.
Defined.

Lemma zenith_of_90 : solar_zenith_rad 90 = 0%R.
Proof. unfold solar_zenith_rad. lra. Qed.

Lemma potentialShadow_horizon (azimuth nominalScale : R) (cloudMask : mask)
    (cloudHeight : Z) (p : pixel) :
  potentialShadow (solar_zenith_rad 90) azimuth nominalScale cloudMask
    cloudHeight p = cloudMask p.
Proof.
  unfold potentialShadow, Raster.translate.
  rewrite zenith_of_90, tan_0.
  replace (cos azimuth * (0 * IZR cloudHeight) / nominalScale)%R with (IZR 0)
    by (unfold Rdiv; ring).
  replace (sin azimuth * (0 * IZR cloudHeight) / nominalScale)%R with (IZR 0)
    by (unfold Rdiv; ring).
  rewrite round_IZR. destruct p as [x y]. simpl.
  now rewrite !Z.sub_0_r.
Qed.

(** X10.  With the sun on the horizon (solar zenith 90 degrees) the shadow
    vector has length 0 for every cloud height, each shifted mask is the
    cloud mask itself, and no pixel at all is flagged shadow. *)
Theorem sun_on_horizon_no_shadow :
  forall (g : globals) (img : image) (cloudMaskType : string)
         (cm G S : band) (az : R) (p : pixel),
    Raster.select img cloudMaskType = Ok cm ->
    Raster.get img "solar_azimuth" = Ok az ->
    Raster.get img "solar_zenith" = Ok 90%R ->
    Raster.select (toa g) "green" = Ok G ->
    Raster.select (toa g) "swir2" = Ok S ->
    has_band img "shadows" = false ->
    band_at (shadowMask g img cloudMaskType) "shadows" p = Ok (Num 0).
Proof.
  intros g img ty cm G S az p Hcm Haz Hze HG HS Hnew.
  rewrite (shadows_at g img ty cm G S az 90 p Hcm Haz Hze HG HS Hnew).
  destruct (Raster.gt cm 0.5 p) eqn:Ec; [now rewrite andb_false_r |].
  destruct (Raster.collection_max _ p) eqn:E; [| reflexivity].
  apply collection_max_true in E. destruct E as (m & Hin & Hm).
  apply in_map_iff in Hin. destruct Hin as (h & <- & _).
  rewrite potentialShadow_horizon in Hm. congruence.
Qed.

Lemma sun_on_horizon_no_shadow_witness :
  band_at
    (shadowMask toa_dark
       (mkImage [("cloud", Raster.of_mask origin_mask)]
          [("solar_azimuth", 135%R); ("solar_zenith", 90%R)] 10)
       "cloud")
    "shadows" (0, 100)%Z
  = Ok (Num 0).
Proof.
  apply (sun_on_horizon_no_shadow toa_dark
           (mkImage [("cloud", Raster.of_mask origin_mask)]
              [("solar_azimuth", 135%R); ("solar_zenith", 90%R)] 10)
           "cloud" (Raster.of_mask origin_mask) (Raster.constant 0.5)
           (Raster.constant 0.1) 135 (0, 100)%Z);
    reflexivity.
Defined.

Lemma has_band_addBands_other (img : image) (name n : string) (b : band) :
  has_band img n = false ->
  String.eqb name n = false ->
  has_band (Raster.addBands img name b) n = false.
Proof.
  unfold has_band, Raster.addBands; simpl. intros H Hne.
  destruct (lookup n (bands img)) eqn:E; [discriminate |].
  rewrite (lookup_app_none _ _ _ E). simpl. now rewrite Hne.
Qed.

Lemma gt_of_mask (m : mask) (p : pixel) :
  Raster.gt (Raster.of_mask m) 0.5 p = m p.
Proof. unfold Raster.gt, Raster.of_mask. now destruct (m p). Qed.

(** X11.  [shadowMask] can take the flag of [ESAcloudMask] as its cloud
    band: the chain returns, the 0.5 threshold leaves the stored flag as it
    is, and a pixel with QA bit 10 or 11 set is never flagged shadow. *)
Theorem shadow_after_ESA_flag :
  forall (g : globals) (img : image) (qa G S : band) (az ze : R)
         (p : pixel) (v : Z),
    Raster.select img "QA60" = Ok qa ->
    has_band img "ESA_clouds" = false ->
    has_band img "shadows" = false ->
    Raster.get img "solar_azimuth" = Ok az ->
    Raster.get img "solar_zenith" = Ok ze ->
    Raster.select (toa g) "green" = Ok G ->
    Raster.select (toa g) "swir2" = Ok S ->
    qa p = Num (inject_Z v) ->
    exists flag : bool,
      band_at (flagged <- ESAcloudMask img ;;
               shadowMask g flagged "ESA_clouds") "shadows" p
      = Ok (of_bool flag) /\
      (flag = true -> Z.testbit v 10 = false /\ Z.testbit v 11 = false).
Proof.
  intros g img qa G S az ze p v Hqa Hesa Hsh Haz Hze HG HS Hv.
  unfold ESAcloudMask. rewrite Hqa. cbn [bind ret].
  set (cloud := Raster.Not _).
  set (flagged := Raster.addBands img "ESA_clouds" (Raster.of_mask cloud)).
  assert (Hsel : Raster.select flagged "ESA_clouds" = Ok (Raster.of_mask cloud))
    by (apply select_addBands_new; assumption).
  assert (Hnew : has_band flagged "shadows" = false)
    by (apply has_band_addBands_other; [assumption | reflexivity]).
  eexists. split.
  - apply (shadows_at g flagged "ESA_clouds" (Raster.of_mask cloud) G S az ze p);
      assumption.
  - rewrite !andb_true_iff, negb_true_iff, gt_of_mask.
    intros [[_ Hc] _]. subst cloud. rewrite (ESA_flag qa p v Hv) in Hc.
    now apply orb_false_iff in Hc.
Qed.

Lemma shadow_after_ESA_flag_witness :
  exists flag : bool,
    band_at (flagged <- ESAcloudMask
                          (mkImage [("QA60", Raster.constant (inject_Z 2048))]
                             [("solar_azimuth", 0%R); ("solar_zenith", 45%R)] 10) ;;
             shadowMask toa_dark flagged "ESA_clouds") "shadows" (3, 3)%Z
    = Ok (of_bool flag) /\
    (flag = true -> Z.testbit 2048 10 = false /\ Z.testbit 2048 11 = false).
Proof.
  apply (shadow_after_ESA_flag toa_dark
           (mkImage [("QA60", Raster.constant (inject_Z 2048))]
              [("solar_azimuth", 0%R); ("solar_zenith", 45%R)] 10)
           (Raster.constant (inject_Z 2048)) (Raster.constant 0.5)
           (Raster.constant 0.1) 0 45 (3, 3)%Z 2048);
    reflexivity.
Defined.

(** ** From the raw scene to reflectance *)

Lemma renameS2_ok (img : image) (rb : s2_bands) :
  raw_bands img rb ->
  exists t : image,
    renameS2 img = Ok t /\
    bands t =
    [ ("aerosol", reflectance (s2_B1 rb)); ("blue", reflectance (s2_B2 rb));
      ("green", reflectance (s2_B3 rb)); ("red", reflectance (s2_B4 rb));
      ("red2", reflectance (s2_B6 rb)); ("nir", reflectance (s2_B8 rb));
      ("red4", reflectance (s2_B8A rb)); ("h2o", reflectance (s2_B9 rb));
      ("cirrus", reflectance (s2_B10 rb)); ("swir1", reflectance (s2_B11 rb));
      ("swir2", reflectance (s2_B12 rb)); ("QA60", s2_QA60 rb) ] /\
    scale t = scale img /\
    (forall x, Raster.get img "MEAN_SOLAR_AZIMUTH_ANGLE" = Ok x ->
               Raster.get t "solar_azimuth" = Ok x) /\
    (forall x, Raster.get img "MEAN_SOLAR_ZENITH_ANGLE" = Ok x ->
               Raster.get t "solar_zenith" = Ok x).
Proof.
  intros (H1 & H2 & H3 & H4 & H6 & H8 & H8A & H9 & H10 & H11 & H12 & HQA).
  unfold renameS2, Raster.select_bands. cbn [Raster.select_as].
  rewrite H1, H2, H3, H4, H6, H8, H8A, H9, H10, H11, H12, HQA.
  cbn [bind ret].
  eexists. split; [reflexivity |].
  split; [destruct (Raster.get img "MEAN_SOLAR_AZIMUTH_ANGLE"),
            (Raster.get img "MEAN_SOLAR_ZENITH_ANGLE"); reflexivity |].
  split; [destruct (Raster.get img "MEAN_SOLAR_AZIMUTH_ANGLE"),
            (Raster.get img "MEAN_SOLAR_ZENITH_ANGLE"); reflexivity |].
  split; intros x Hx; rewrite Hx.
  - destruct (Raster.get img "MEAN_SOLAR_ZENITH_ANGLE"); reflexivity.
  - reflexivity.
Qed.

Lemma select_of_bands (t : image) (l : list (string * band)) (n : string) :
  bands t = l ->
  Raster.select t n =
  match lookup n l with Some b => Ok b | None => Err (MissingBand n) end.
Proof. intros <-. reflexivity. Qed.

Lemma has_band_of_bands (t : image) (l : list (string * band)) (n : string) :
  bands t = l ->
  has_band t n = match lookup n l with Some _ => true | None => false end.
Proof. intros <-. reflexivity. Qed.

Lemma reflectance_value (b : band) (p : pixel) (x : Q) :
  b p = Num x -> reflectance b p = Num (x / 10000).
Proof.
  intros H. unfold reflectance, Raster.divide, Raster.constant. rewrite H.
  apply vdiv_Num. intros E. vm_compute in E. discriminate.
Qed.

(** X12.  On an image holding the twelve raw bands [renameS2] returns an
    image whose bands are exactly aerosol, blue, green, red, red2, nir, red4,
    h2o, cirrus, swir1, swir2 and QA60, in that order, where each of the
    first eleven is its raw band (B1, B2, B3, B4, B6, B8, B8A, B9, B10, B11,
    B12) divided by 10000 and QA60, appended after the division, is the raw
    QA60 (other bands, such as B5 and B7, are dropped).  A digital number in
    0..10000 becomes a reflectance in [0,1]; the bands the scorer reads are
    there; the mean solar angles reappear as solar_azimuth and
    solar_zenith. *)
Theorem renameS2_output :
  forall (img : image) (rb : s2_bands),
    raw_bands img rb ->
    exists t : image,
      renameS2 img = Ok t /\
      bands t =
      [ ("aerosol", reflectance (s2_B1 rb)); ("blue", reflectance (s2_B2 rb));
        ("green", reflectance (s2_B3 rb)); ("red", reflectance (s2_B4 rb));
        ("red2", reflectance (s2_B6 rb)); ("nir", reflectance (s2_B8 rb));
        ("red4", reflectance (s2_B8A rb)); ("h2o", reflectance (s2_B9 rb));
        ("cirrus", reflectance (s2_B10 rb)); ("swir1", reflectance (s2_B11 rb));
        ("swir2", reflectance (s2_B12 rb)); ("QA60", s2_QA60 rb) ] /\
      required_bands t (toa_bands rb) /\
      (forall (b : band) (p : pixel) (x : Q),
          b p = Num x ->
          reflectance b p = Num (x / 10000) /\
          (0 <= x <= 10000 -> 0 <= x / 10000 <= 1)) /\
      (forall x, Raster.get img "MEAN_SOLAR_AZIMUTH_ANGLE" = Ok x ->
                 Raster.get t "solar_azimuth" = Ok x) /\
      (forall x, Raster.get img "MEAN_SOLAR_ZENITH_ANGLE" = Ok x ->
                 Raster.get t "solar_zenith" = Ok x).
Proof.
  intros img rb Hraw.
  destruct (renameS2_ok img rb Hraw) as (t & Ht & Hb & _ & Haz & Hze).
  exists t. split; [exact Ht |].
  split; [exact Hb |].
  split; [repeat split; rewrite (select_of_bands t _ _ Hb); reflexivity |].
  split; [| split; assumption].
  intros b p x Hx. split; [now apply reflectance_value |].
  intros [Hlo Hhi].
  assert (E : x / 10000 * 10000 == x)
    by (apply quotient_times; intros E; vm_compute in E; discriminate).
  split; lra.
Qed.

Lemma flat_raw_bands (dn qa : Z) :
  raw_bands (flat_raw_scene dn qa) (raw_uniform dn qa).
Proof. repeat split. Qed.

Lemma renameS2_output_witness :
  exists t : image,
    renameS2 graded_raw_scene = Ok t /\
    bands t =
    [ ("aerosol", reflectance (s2_B1 graded_raw));
      ("blue", reflectance (s2_B2 graded_raw));
      ("green", reflectance (s2_B3 graded_raw));
      ("red", reflectance (s2_B4 graded_raw));
      ("red2", reflectance (s2_B6 graded_raw));
      ("nir", reflectance (s2_B8 graded_raw));
      ("red4", reflectance (s2_B8A graded_raw));
      ("h2o", reflectance (s2_B9 graded_raw));
      ("cirrus", reflectance (s2_B10 graded_raw));
      ("swir1", reflectance (s2_B11 graded_raw));
      ("swir2", reflectance (s2_B12 graded_raw));
      ("QA60", s2_QA60 graded_raw) ] /\
    required_bands t (toa_bands graded_raw) /\
    (forall (b : band) (p : pixel) (x : Q),
        b p = Num x ->
        reflectance b p = Num (x / 10000) /\
        (0 <= x <= 10000 -> 0 <= x / 10000 <= 1)) /\
    (forall x,
        Raster.get graded_raw_scene "MEAN_SOLAR_AZIMUTH_ANGLE" = Ok x ->
        Raster.get t "solar_azimuth" = Ok x) /\
    (forall x,
        Raster.get graded_raw_scene "MEAN_SOLAR_ZENITH_ANGLE" = Ok x ->
        Raster.get t "solar_zenith" = Ok x).
Proof.
  apply (renameS2_output graded_raw_scene graded_raw).
  repeat split.
Defined.

Ltac split_select img n :=
  let b := fresh "b" in
  let E := fresh "E" in
  let H := fresh "H" in
  destruct (select_cases img n) as [(b & E & H) | (E & H)];
  rewrite E; cbn [bind ret];
  [ | right; exists n; split; [simpl; tauto | split; [exact H | reflexivity]] ].

Lemma renameS2_cases (img : image) :
  (exists rb : s2_bands, raw_bands img rb) \/
  (exists n : string,
     In n ["B1"; "B2"; "B3"; "B4"; "B6"; "B8"; "B8A"; "B9"; "B10"; "B11";
           "B12"; "QA60"] /\
     has_band img n = false /\
     renameS2 img = Err (MissingBand n)).
Proof.
  unfold renameS2, Raster.select_bands. cbn [Raster.select_as].
  split_select img "B1". split_select img "B2". split_select img "B3".
  split_select img "B4". split_select img "B6". split_select img "B8".
  split_select img "B8A". split_select img "B9". split_select img "B10".
  split_select img "B11". split_select img "B12". split_select img "QA60".
  left. exists (mkS2Bands b b0 b1 b2 b3 b4 b5 b6 b7 b8 b9 b10).
  repeat split; assumption.
Qed.

(** X13.  [renameS2] returns exactly when the image holds the eleven
    reflectance bands it renames and QA60; when one of them is absent it
    fails with the missing-band error of an absent band. *)
Theorem renameS2_succeeds_iff :
  forall img : image,
    ((exists t, renameS2 img = Ok t) <->
     forallb (has_band img)
       ["B1"; "B2"; "B3"; "B4"; "B6"; "B8"; "B8A"; "B9"; "B10"; "B11";
        "B12"; "QA60"] = true) /\
    (forallb (has_band img)
       ["B1"; "B2"; "B3"; "B4"; "B6"; "B8"; "B8A"; "B9"; "B10"; "B11";
        "B12"; "QA60"] = false ->
     exists n : string,
       In n ["B1"; "B2"; "B3"; "B4"; "B6"; "B8"; "B8A"; "B9"; "B10"; "B11";
             "B12"; "QA60"] /\
       has_band img n = false /\
       renameS2 img = Err (MissingBand n)).
Proof.
  intros img.
  destruct (renameS2_cases img) as [(rb & Hraw) | (n & Hin & Hn & Herr)].
  - assert (Hall : forallb (has_band img)
              ["B1"; "B2"; "B3"; "B4"; "B6"; "B8"; "B8A"; "B9"; "B10"; "B11";
               "B12"; "QA60"] = true).
    { apply forallb_forall. intros n Hin.
      destruct Hraw as (H1 & H2 & H3 & H4 & H6 & H8 & H8A & H9 & H10 & H11
                        & H12 & HQA).
      simpl in Hin.
      decompose [or] Hin; try contradiction; subst n;
        eapply select_has_band; eassumption. }
    destruct (renameS2_ok img rb Hraw) as (t & Ht & _).
    split; [split; [intros _; exact Hall | intros _; eauto] |].
    intros Hf. congruence.
  - assert (Hnot : forallb (has_band img)
              ["B1"; "B2"; "B3"; "B4"; "B6"; "B8"; "B8A"; "B9"; "B10"; "B11";
               "B12"; "QA60"] = false).
    { apply not_true_is_false. intros Hall.
      rewrite forallb_forall in Hall. specialize (Hall n Hin). congruence. }
    split; [split |].
    + intros [t Ht]. congruence.
    + intros Hall. congruence.
    + intros _. exists n. auto.
Qed.

Lemma renameS2_succeeds_iff_witness :
  exists n : string,
    In n ["B1"; "B2"; "B3"; "B4"; "B6"; "B8"; "B8A"; "B9"; "B10"; "B11";
          "B12"; "QA60"] /\
    has_band (qa_scene 0) n = false /\
    renameS2 (qa_scene 0) = Err (MissingBand n).
Proof.
  apply (proj2 (renameS2_succeeds_iff (qa_scene 0))).
  reflexivity.
Defined.

(** ** The mask cells of the notebook *)

Lemma sentinelCloudScore_ok (img : image) (bs : cloud_bands) :
  required_bands img bs ->
  sentinelCloudScore img =
  Ok (Raster.addBands img "cloudScore"
        (fun p => minAggregate (Num 1) (spec_indicators bs p))).
Proof.
  intros (Hblue & Haer & Hcir & Hred & Hgre & Hr4 & Hsw).
  unfold sentinelCloudScore, Raster.normalizedDifference.
  rewrite Hblue, Haer, Hcir, Hred, Hgre, Hr4, Hsw.
  cbn [bind ret]. rewrite !rescale_pair. cbn [bind ret].
  reflexivity.
Qed.

Lemma shadowMask_ok (g : globals) (img : image) (cloudMaskType : string)
    (cm G S : band) (az ze : R) :
  Raster.select img cloudMaskType = Ok cm ->
  Raster.get img "solar_azimuth" = Ok az ->
  Raster.get img "solar_zenith" = Ok ze ->
  Raster.select (toa g) "green" = Ok G ->
  Raster.select (toa g) "swir2" = Ok S ->
  exists sh : mask,
    shadowMask g img cloudMaskType
    = Ok (Raster.addBands img "shadows" (Raster.of_mask sh)) /\
    forall p : pixel,
      sh p = true ->
      vgt (cm p) 0.5 = false /\
      vgt (vdiv (vsub (G p) (S p)) (vadd (G p) (S p))) 0.25 = true.
Proof.
  intros Hcm Haz Hze HG HS.
  unfold shadowMask, Raster.normalizedDifference.
  rewrite Hcm, Haz, Hze, HG, HS. cbn [bind ret].
  eexists. split; [reflexivity |].
  intros p. unfold Raster.And, Raster.Not.
  rewrite !andb_true_iff, negb_true_iff. intros [[_ Hc] Hd].
  split; [exact Hc | exact Hd].
Qed.

Lemma to_mask_of_mask (m : mask) (p : pixel) :
  Raster.to_mask (Raster.of_mask m) p = m p.
Proof. unfold Raster.to_mask, Raster.of_mask. now destruct (m p). Qed.

Lemma get_addBands (img : image) (name n : string) (b : band) :
  Raster.get (Raster.addBands img name b) n = Raster.get img n.
Proof. reflexivity. Qed.

Lemma pipeline_masks (g : globals) (bs : cloud_bands) (S : band) (az ze : R) :
  required_bands (toa g) bs ->
  Raster.select (toa g) "swir2" = Ok S ->
  Raster.get (toa g) "solar_azimuth" = Ok az ->
  Raster.get (toa g) "solar_zenith" = Ok ze ->
  has_band (toa g) "cloudScore" = false ->
  has_band (toa g) "shadows" = false ->
  exists (cs sm : mask) (final : Raster.masked),
    cloud_score g = Ok cs /\
    shadow_mask g = Ok sm /\
    toaSHA g = Ok final /\
    Raster.data final = toa g /\
    forall p : pixel,
      Raster.valid final p = cs p && sm p /\
      cs p = negb (vgt (minAggregate (Num 1) (spec_indicators bs p)) 0.5) /\
      (sm p = false ->
       cs p = true /\
       vgt (vdiv (vsub (b_green bs p) (S p)) (vadd (b_green bs p) (S p))) 0.25
       = true).
Proof.
  intros Hreq HS Haz Hze Hcs Hsh.
  pose proof (sentinelCloudScore_ok (toa g) bs Hreq) as Hscore.
  set (score := fun p => minAggregate (Num 1) (spec_indicators bs p)) in *.
  set (scored := Raster.addBands (toa g) "cloudScore" score) in *.
  assert (Hsel : Raster.select scored "cloudScore" = Ok score)
    by (apply select_addBands_new; assumption).
  assert (HG : Raster.select (toa g) "green" = Ok (b_green bs))
    by (destruct Hreq as (_ & _ & _ & _ & H & _); exact H).
  destruct (shadowMask_ok g scored "cloudScore" score (b_green bs) S az ze
              Hsel Haz Hze HG HS) as (sh & Hshadow & Hsh_spec).
  assert (Hnew : has_band scored "shadows" = false)
    by (apply has_band_addBands_other; [assumption | reflexivity]).
  assert (Hsel2 : Raster.select (Raster.addBands scored "shadows"
                                   (Raster.of_mask sh)) "shadows"
                  = Ok (Raster.of_mask sh))
    by (apply select_addBands_new; assumption).
  assert (E1 : cloud_score g = Ok (Raster.Not (Raster.gt score 0.5))).
  { unfold cloud_score. rewrite Hscore. cbn [bind]. rewrite Hsel. reflexivity. }
  assert (E2 : shadow_mask g
               = Ok (Raster.Not (Raster.to_mask (Raster.of_mask sh)))).
  { unfold shadow_mask. rewrite Hscore. cbn [bind]. rewrite Hshadow.
    cbn [bind]. rewrite Hsel2. reflexivity. }
  eexists. eexists. eexists.
  split; [exact E1 |]. split; [exact E2 |].
  split; [unfold toaSHA, toaCS; rewrite E1; cbn [bind ret]; rewrite E2;
          reflexivity |].
  split; [reflexivity |].
  intros p. split; [reflexivity |]. split; [reflexivity |].
  unfold Raster.Not. rewrite to_mask_of_mask, negb_false_iff. intros Hp.
  destruct (Hsh_spec p Hp) as [Hc Hd]. split; [| exact Hd].
  unfold Raster.gt. fold (score p) in Hc. now rewrite Hc.
Qed.

Lemma toa_of_raw (raw : image) (rb : s2_bands) (a z : R) :
  raw_bands raw rb ->
  Raster.get raw "MEAN_SOLAR_AZIMUTH_ANGLE" = Ok a ->
  Raster.get raw "MEAN_SOLAR_ZENITH_ANGLE" = Ok z ->
  exists t : image,
    renameS2 raw = Ok t /\
    required_bands t (toa_bands rb) /\
    Raster.select t "swir2" = Ok (reflectance (s2_B12 rb)) /\
    Raster.select t "QA60" = Ok (s2_QA60 rb) /\
    Raster.get t "solar_azimuth" = Ok a /\
    Raster.get t "solar_zenith" = Ok z /\
    has_band t "cloudScore" = false /\
    has_band t "shadows" = false /\
    has_band t "ESA_clouds" = false.
Proof.
  intros Hraw Ha Hz.
  destruct (renameS2_ok raw rb Hraw) as (t & Ht & Hb & _ & Haz & Hze).
  exists t. split; [exact Ht |].
  split; [repeat split; rewrite (select_of_bands t _ _ Hb); reflexivity |].
  split; [rewrite (select_of_bands t _ _ Hb); reflexivity |].
  split; [rewrite (select_of_bands t _ _ Hb); reflexivity |].
  split; [auto |]. split; [auto |].
  repeat split; rewrite (has_band_of_bands t _ _ Hb); reflexivity.
Qed.

(** X14.  The cloud-and-shadow cells on a raw scene.  With the twelve raw
    bands and the two mean solar angles present, [renameS2] and the cells
    building [cloud_score], [shadow_mask] and [toaSHA] all return; [toaSHA]
    is the reflectance image, valid exactly where both masks are true; the
    cloud mask is false exactly where the combined score exceeds 0.5; and
    the shadow mask removes only pixels the cloud mask kept. *)
Theorem cloud_and_shadow_cells :
  forall (raw : image) (rb : s2_bands) (a z : R),
    raw_bands raw rb ->
    Raster.get raw "MEAN_SOLAR_AZIMUTH_ANGLE" = Ok a ->
    Raster.get raw "MEAN_SOLAR_ZENITH_ANGLE" = Ok z ->
    exists (t : image) (cs sm : mask) (final : Raster.masked),
      renameS2 raw = Ok t /\
      cloud_score (mkGlobals t) = Ok cs /\
      shadow_mask (mkGlobals t) = Ok sm /\
      toaSHA (mkGlobals t) = Ok final /\
      Raster.data final = t /\
      forall p : pixel,
        Raster.valid final p = cs p && sm p /\
        cs p = negb (vgt (minAggregate (Num 1)
                            (spec_indicators (toa_bands rb) p)) 0.5) /\
        (sm p = false -> cs p = true).
Proof.
  intros raw rb a z Hraw Ha Hz.
  destruct (toa_of_raw raw rb a z Hraw Ha Hz)
    as (t & Ht & Hreq & HS & _ & Haz & Hze & Hcs & Hsh & _).
  destruct (pipeline_masks (mkGlobals t) (toa_bands rb)
              (reflectance (s2_B12 rb)) a z Hreq HS Haz Hze Hcs Hsh)
    as (cs & sm & final & E1 & E2 & E3 & Hd & Hp).
  exists t, cs, sm, final. repeat (split; [assumption |]).
  intros p. destruct (Hp p) as (Hv & Hc & Hs).
  split; [exact Hv |]. split; [exact Hc |].
  intros Hf. now destruct (Hs Hf).
Qed.

Lemma cloud_and_shadow_cells_witness :
  exists (t : image) (cs sm : mask) (final : Raster.masked),
    renameS2 (flat_raw_scene 2500 0) = Ok t /\
    cloud_score (mkGlobals t) = Ok cs /\
    shadow_mask (mkGlobals t) = Ok sm /\
    toaSHA (mkGlobals t) = Ok final /\
    Raster.data final = t /\
    forall p : pixel,
      Raster.valid final p = cs p && sm p /\
      cs p = negb (vgt (minAggregate (Num 1)
                          (spec_indicators (toa_bands (raw_uniform 2500 0)) p))
                       0.5) /\
      (sm p = false -> cs p = true).
Proof.
  apply (cloud_and_shadow_cells (flat_raw_scene 2500 0) (raw_uniform 2500 0)
           0 45).
  - repeat split.
  - reflexivity.
  - reflexivity.
Defined.

(** X15.  The ESA cells on a raw scene.  With the twelve raw bands present,
    [renameS2] and the cells building [esa_mask] and [toaESA] return, and a
    pixel of [toaESA] is valid exactly when bits 10 and 11 of its raw QA60
    value are both zero: the QA band reaches the bit test unscaled. *)
Theorem esa_cells :
  forall (raw : image) (rb : s2_bands) (p : pixel) (v : Z),
    raw_bands raw rb ->
    s2_QA60 rb p = Num (inject_Z v) ->
    exists (t : image) (em : mask) (final : Raster.masked),
      renameS2 raw = Ok t /\
      esa_mask (mkGlobals t) = Ok em /\
      toaESA (mkGlobals t) = Ok final /\
      Raster.data final = t /\
      (Raster.valid final p = true <->
       Z.testbit v 10 = false /\ Z.testbit v 11 = false).
Proof.
  intros raw rb p v Hraw Hv.
  destruct (renameS2_ok raw rb Hraw) as (t & Ht & Hb & _).
  assert (Hqa : Raster.select t "QA60" = Ok (s2_QA60 rb))
    by (rewrite (select_of_bands t _ _ Hb); reflexivity).
  assert (Hnew : has_band t "ESA_clouds" = false)
    by (rewrite (has_band_of_bands t _ _ Hb); reflexivity).
  set (cloud := Raster.Not
                  (Raster.And
                     (Raster.eq (Raster.bitwiseAnd (s2_QA60 rb) (2 ^ 10)) 0)
                     (Raster.eq (Raster.bitwiseAnd (s2_QA60 rb) (2 ^ 11)) 0))).
  assert (E : esa_mask (mkGlobals t)
              = Ok (Raster.Not (Raster.to_mask (Raster.of_mask cloud)))).
  { unfold esa_mask, ESAcloudMask. cbn [toa]. rewrite Hqa. cbn [bind ret].
    rewrite select_addBands_new by assumption. reflexivity. }
  exists t. eexists. eexists.
  split; [exact Ht |]. split; [exact E |].
  split; [unfold toaESA; rewrite E; reflexivity |].
  split; [reflexivity |].
  change (true && negb (Raster.to_mask (Raster.of_mask cloud) p) = true
          <-> Z.testbit v 10 = false /\ Z.testbit v 11 = false).
  rewrite to_mask_of_mask. subst cloud.
  rewrite (ESA_flag (s2_QA60 rb) p v Hv).
  cbn [andb]. rewrite negb_true_iff. apply orb_false_iff.
Qed.

Lemma esa_cells_witness :
  exists (t : image) (em : mask) (final : Raster.masked),
    renameS2 (flat_raw_scene 2500 2048) = Ok t /\
    esa_mask (mkGlobals t) = Ok em /\
    toaESA (mkGlobals t) = Ok final /\
    Raster.data final = t /\
    (Raster.valid final (0, 0)%Z = true <->
     Z.testbit 2048 10 = false /\ Z.testbit 2048 11 = false).
Proof.
  apply (esa_cells (flat_raw_scene 2500 2048) (raw_uniform 2500 2048)
           (0, 0)%Z 2048).
  - repeat split.
  - reflexivity.
Defined.

(** X16.  A pixel without signal is never masked.  Where the raw bands B3,
    B11 and B12 (green, swir1, swir2) are all zero, the normalized
    differences have a zero denominator, the pixel fails both the cloud
    test and the darkness test, and it stays valid in [toaSHA] whatever the
    other bands and the neighbouring pixels hold. *)
Theorem zero_pixel_stays_valid :
  forall (raw : image) (rb : s2_bands) (a z : R) (p : pixel),
    raw_bands raw rb ->
    Raster.get raw "MEAN_SOLAR_AZIMUTH_ANGLE" = Ok a ->
    Raster.get raw "MEAN_SOLAR_ZENITH_ANGLE" = Ok z ->
    s2_B3 rb p = Num 0 ->
    s2_B11 rb p = Num 0 ->
    s2_B12 rb p = Num 0 ->
    exists (t : image) (final : Raster.masked),
      renameS2 raw = Ok t /\
      toaSHA (mkGlobals t) = Ok final /\
      Raster.valid final p = true.
Proof.
  intros raw rb a z p Hraw Ha Hz H3 H11 H12.
  destruct (toa_of_raw raw rb a z Hraw Ha Hz)
    as (t & Ht & Hreq & HS & _ & Haz & Hze & Hcs & Hsh & _).
  destruct (pipeline_masks (mkGlobals t) (toa_bands rb)
              (reflectance (s2_B12 rb)) a z Hreq HS Haz Hze Hcs Hsh)
    as (cs & sm & final & _ & _ & E3 & _ & Hp).
  exists t, final. split; [exact Ht |]. split; [exact E3 |].
  destruct (Hp p) as (Hv & Hc & Hs). rewrite Hv.
  assert (Hscore : minAggregate (Num 1) (spec_indicators (toa_bands rb) p) = NaN).
  { apply minAggregate_propagates. unfold spec_indicators, toa_bands.
    cbn [b_green b_swir1].
    rewrite (reflectance_value _ _ _ H3), (reflectance_value _ _ _ H11).
    rewrite (nd_zero_denominator (0 / 10000) (0 / 10000)) by reflexivity.
    rewrite spec_rescale_NaN. simpl. tauto. }
  rewrite Hscore in Hc. cbn [vgt negb] in Hc. rewrite Hc.
  destruct (sm p) eqn:Esm; [reflexivity |].
  destruct (Hs eq_refl) as [_ Hd]. exfalso.
  unfold toa_bands in Hd. cbn [b_green] in Hd.
  rewrite (reflectance_value _ _ _ H3), (reflectance_value _ _ _ H12) in Hd.
  change (vadd (Num (0 / 10000)) (Num (0 / 10000)))
    with (Num (0 / 10000 + 0 / 10000)) in Hd.
  rewrite vdiv_zero in Hd by reflexivity. discriminate.
Qed.

Lemma zero_pixel_stays_valid_witness :
  exists (t : image) (final : Raster.masked),
    renameS2 (flat_raw_scene 0 0) = Ok t /\
    toaSHA (mkGlobals t) = Ok final /\
    Raster.valid final (7, 7)%Z = true.
Proof.
  apply (zero_pixel_stays_valid (flat_raw_scene 0 0) (raw_uniform 0 0)
           0 45 (7, 7)%Z);
    try reflexivity.
  repeat split.
Defined.

Lemma select_addBands_other (img : image) (name n : string) (b : band) :
  String.eqb name n = false ->
  Raster.select (Raster.addBands img name b) n = Raster.select img n.
Proof.
  intros Hne. unfold Raster.select, Raster.addBands; simpl.
  destruct (lookup n (bands img)) as [c |] eqn:E.
  - now rewrite (lookup_app_some _ _ _ _ E).
  - rewrite (lookup_app_none _ _ _ E). simpl. now rewrite Hne.
Qed.

(** X17.  In the notebook's own call, [shadowMask(sentinelCloudScore(toa),
    'cloudScore')], the image passed and the global [toa] that the darkness
    test reads hold the same green and swir2 bands. *)
Theorem notebook_call_same_darkness_bands :
  forall (g : globals) (scored : image),
    sentinelCloudScore (toa g) = Ok scored ->
    Raster.select scored "green" = Raster.select (toa g) "green" /\
    Raster.select scored "swir2" = Raster.select (toa g) "swir2".
Proof.
  intros g scored H.
  destruct (sentinelCloudScore_cases (toa g))
    as [(bs & _ & E) | (n & _ & _ & E)];
    rewrite E in H; [| discriminate].
  injection H as <-.
  split; apply select_addBands_other; reflexivity.
Qed.

Lemma notebook_call_same_darkness_bands_witness :
  Raster.select
    (Raster.addBands (toa toa_dark) "cloudScore"
       (fun p => minAggregate (Num 1)
                   (spec_indicators
                      (uniform_bands 0.1 0.1 0.1 0.1 0.5 0.1 0.1) p)))
    "green"
  = Raster.select (toa toa_dark) "green" /\
  Raster.select
    (Raster.addBands (toa toa_dark) "cloudScore"
       (fun p => minAggregate (Num 1)
                   (spec_indicators
                      (uniform_bands 0.1 0.1 0.1 0.1 0.5 0.1 0.1) p)))
    "swir2"
  = Raster.select (toa toa_dark) "swir2".
Proof.
  apply (notebook_call_same_darkness_bands toa_dark).
  reflexivity.
Defined.
